(** * AdaptiveTXWSN: battery-driven adaptive transmission scheduler

    Shallow embedding of [src/AdaptiveTXWSN.h] and the properties of its
    hysteresis classifier, hard cutoff gate and periodic timer.

    Data follows the header:
    - [float] is IEEE-754 binary32 (the ATmega328P target named in the
      header, where every operation is rounded to nearest-even on its own);
      it is modelled with the executable [spec_float] operations at
      precision 24 and maximal exponent 128;
    - [uint32_t] values are integers in [0, 2^32) with the wrap-around of
      [+] and [-] written out, [(int32_t)] is the two's-complement cast;
    - [Level] is the three-valued enumeration;
    - the Arduino primitives [millis], [analogRead], [delayMicroseconds]
      and [pinMode] act on an explicit [Board] value threaded through the
      calls. *)

From Stdlib Require Import ZArith Bool List Lia QArith.
From Stdlib Require Import Floats.SpecFloat.
Import ListNotations.

Local Open Scope Z_scope.

(** ** Single-precision floats *)

Module F32.

Definition prec : Z := 24.
Definition emax : Z := 128.

Definition float : Type := spec_float.

Definition add : float -> float -> float := SFadd prec emax.
Definition sub : float -> float -> float := SFsub prec emax.
Definition mul : float -> float -> float := SFmul prec emax.
Definition div : float -> float -> float := SFdiv prec emax.

(** [a < b] and [a >= b] of C++: both are false when an operand is NaN. *)
Definition ltb (a b : float) : bool := SFltb a b.
Definition geb (a b : float) : bool := SFleb b a.

(** Conversion of an integer value, as in [(float)acumuladorAdc]. *)
Definition of_Z (z : Z) : float := binary_normalize prec emax z 0 false.

(** A decimal literal [num/den] with both parts exactly representable:
    the correctly rounded quotient is the value of the literal. *)
Definition lit (num den : Z) : float := div (of_Z num) (of_Z den).

Definition one : float := of_Z 1.

(** A value of the binary32 format (canonical mantissa, exponent in range). *)
Definition valid (x : float) : bool := valid_binary prec emax x.

(** Exact rational value of a finite float ([0] for the others). *)
Definition to_Q (x : float) : Q :=
  match x with
  | S754_finite s m e =>
      let q := (inject_Z (Zpos m) * Qpower (2 # 1) e)%Q in
      if s then Qopp q else q
  | _ => 0%Q
  end.

End F32.

(** ** Machine integers *)

Definition wrap32 (z : Z) : Z := z mod 2 ^ 32.

(** [(int32_t)x] for an unsigned 32-bit [x]. *)
Definition to_int32 (x : Z) : Z := if x <? 2 ^ 31 then x else x - 2 ^ 32.

(** ** The Arduino board

    [reloj_ms] is what [millis()] answers during the call, [entrada_adc k]
    what the [k]-th [analogRead] since power-up answers; the other fields
    record the effects the library has on the hardware. *)

Record Board : Type := mkBoard {
  reloj_ms      : Z;
  entrada_adc   : nat -> Z;
  lecturas_adc  : nat;
  espera_us     : Z;
  pines_entrada : list Z
}.

Definition millis (hw : Board) : Z := reloj_ms hw.

Definition analogRead (pin : Z) (hw : Board) : Z * Board :=
  (entrada_adc hw (lecturas_adc hw),
   mkBoard (reloj_ms hw) (entrada_adc hw) (S (lecturas_adc hw))
           (espera_us hw) (pines_entrada hw)).

Definition delayMicroseconds (us : Z) (hw : Board) : Board :=
  mkBoard (reloj_ms hw) (entrada_adc hw) (lecturas_adc hw)
          (espera_us hw + us) (pines_entrada hw).

Definition pinMode_INPUT (pin : Z) (hw : Board) : Board :=
  mkBoard (reloj_ms hw) (entrada_adc hw) (lecturas_adc hw)
          (espera_us hw) (pin :: pines_entrada hw).

(** ** Configuration, level and object state *)

Record Cfg : Type := mkCfg {
  pinAdcBateria        : Z;          (* int8_t  *)
  voltajeReferenciaAdc : F32.float;
  divisorRArriba_k     : F32.float;
  divisorRAbajo_k      : F32.float;
  muestrasPromedioAdc  : Z;          (* uint8_t *)
  umbralAlto_V         : F32.float;
  umbralMedio_V        : F32.float;
  fraccionHisteresis   : F32.float;
  periodoAlto_ms       : Z;          (* uint32_t *)
  periodoMedio_ms      : Z;
  periodoBajo_ms       : Z;
  corteVoltaje_V       : F32.float
}.

(** The default member initialisers of [struct Cfg]. *)
Definition Cfg_default : Cfg :=
  mkCfg (-1) (F32.lit 5 1) (F32.lit 100 1) (F32.lit 33 1) 8
        (F32.lit 390 100) (F32.lit 360 100) (F32.lit 3 100)
        5000 15000 120000
        (F32.lit 340 100).

Inductive Level : Type := BATT_LOW | BATT_MID | BATT_HIGH.

(** The enumerator values [BATT_LOW=0, BATT_MID=1, BATT_HIGH=2]. *)
Definition Level_value (l : Level) : Z :=
  match l with BATT_LOW => 0 | BATT_MID => 1 | BATT_HIGH => 2 end.

Record AdaptiveTXWSN : Type := mkObj {
  _configuracion         : Cfg;
  _nivelEnergeticoActual : Level;
  _msProximoEnvio        : Z;        (* uint32_t *)
  _ultimoVoltajeMedido_V : F32.float;
  _bloqueadoPorCorte     : bool;
  _usarLecturaInyectada  : bool;
  _voltajeInyectado_V    : F32.float
}.

Definition with_cfg (c : Cfg) (s : AdaptiveTXWSN) : AdaptiveTXWSN :=
  mkObj c (_nivelEnergeticoActual s) (_msProximoEnvio s)
        (_ultimoVoltajeMedido_V s) (_bloqueadoPorCorte s)
        (_usarLecturaInyectada s) (_voltajeInyectado_V s).

Definition with_nivel (l : Level) (s : AdaptiveTXWSN) : AdaptiveTXWSN :=
  mkObj (_configuracion s) l (_msProximoEnvio s)
        (_ultimoVoltajeMedido_V s) (_bloqueadoPorCorte s)
        (_usarLecturaInyectada s) (_voltajeInyectado_V s).

Definition with_proximo (t : Z) (s : AdaptiveTXWSN) : AdaptiveTXWSN :=
  mkObj (_configuracion s) (_nivelEnergeticoActual s) t
        (_ultimoVoltajeMedido_V s) (_bloqueadoPorCorte s)
        (_usarLecturaInyectada s) (_voltajeInyectado_V s).

Definition with_ultimo (v : F32.float) (s : AdaptiveTXWSN) : AdaptiveTXWSN :=
  mkObj (_configuracion s) (_nivelEnergeticoActual s) (_msProximoEnvio s)
        v (_bloqueadoPorCorte s)
        (_usarLecturaInyectada s) (_voltajeInyectado_V s).

Definition with_corte (b : bool) (s : AdaptiveTXWSN) : AdaptiveTXWSN :=
  mkObj (_configuracion s) (_nivelEnergeticoActual s) (_msProximoEnvio s)
        (_ultimoVoltajeMedido_V s) b
        (_usarLecturaInyectada s) (_voltajeInyectado_V s).

Definition with_inyectado (v : F32.float) (s : AdaptiveTXWSN) : AdaptiveTXWSN :=
  mkObj (_configuracion s) (_nivelEnergeticoActual s) (_msProximoEnvio s)
        (_ultimoVoltajeMedido_V s) (_bloqueadoPorCorte s)
        true v.

(** ** Operations *)

(** [begin]: only the configuration, the level and the due-time are
    written; the class has no constructor, so the other four fields keep
    whatever the object held before. *)
Definition begin (cfg : Cfg) (s : AdaptiveTXWSN) (hw : Board)
  : AdaptiveTXWSN * Board :=
  let s1 := with_cfg cfg s in
  let hw1 := if 0 <=? pinAdcBateria (_configuracion s1)
             then pinMode_INPUT (pinAdcBateria (_configuracion s1)) hw
             else hw in
  let s2 := with_nivel BATT_HIGH s1 in
  (with_proximo (millis hw1) s2, hw1).

(** The sampling loop: [acumuladorAdc += analogRead(pin); delayMicroseconds(250)]
    repeated [n] times on a [uint32_t] accumulator. *)
Fixpoint muestrear (pin : Z) (n : nat) (acc : Z) (hw : Board) : Z * Board :=
  match n with
  | O => (acc, hw)
  | S n' =>
      let '(x, hw1) := analogRead pin hw in
      muestrear pin n' (wrap32 (acc + x)) (delayMicroseconds 250 hw1)
  end.

Definition readBatteryVolts (s : AdaptiveTXWSN) (hw : Board)
  : F32.float * Board :=
  let c := _configuracion s in
  if pinAdcBateria c <? 0 then (_ultimoVoltajeMedido_V s, hw)
  else
    let nMuestras := Z.max 1 (muestrasPromedioAdc c) in
    let '(acumuladorAdc, hw1) :=
      muestrear (pinAdcBateria c) (Z.to_nat nMuestras) 0 hw in
    let promedioCuentasAdc :=
      F32.div (F32.of_Z acumuladorAdc) (F32.of_Z nMuestras) in
    let voltajeAdc_V :=
      F32.mul (F32.div promedioCuentasAdc (F32.of_Z 1023))
              (voltajeReferenciaAdc c) in
    let factorDivisor :=
      F32.div (F32.add (divisorRArriba_k c) (divisorRAbajo_k c))
              (divisorRAbajo_k c) in
    (F32.mul voltajeAdc_V factorDivisor, hw1).

Definition level (s : AdaptiveTXWSN) : Level := _nivelEnergeticoActual s.
Definition lastVolts (s : AdaptiveTXWSN) : F32.float := _ultimoVoltajeMedido_V s.
Definition isCutoff (s : AdaptiveTXWSN) : bool := _bloqueadoPorCorte s.

Definition currentPeriod (s : AdaptiveTXWSN) : Z :=
  match _nivelEnergeticoActual s with
  | BATT_HIGH => periodoAlto_ms (_configuracion s)
  | BATT_MID  => periodoMedio_ms (_configuracion s)
  | _         => periodoBajo_ms (_configuracion s)
  end.

Definition actualizarNivelConHisteresis (voltajeBateria_V : F32.float)
    (s : AdaptiveTXWSN) : AdaptiveTXWSN :=
  let c := _configuracion s in
  let diferencialAlto_V  := F32.mul (umbralAlto_V c) (fraccionHisteresis c) in
  let diferencialMedio_V := F32.mul (umbralMedio_V c) (fraccionHisteresis c) in
  match _nivelEnergeticoActual s with
  | BATT_HIGH =>
      if F32.ltb voltajeBateria_V (F32.sub (umbralAlto_V c) diferencialAlto_V)
      then with_nivel BATT_MID s
      else s
  | BATT_MID =>
      if F32.geb voltajeBateria_V (F32.add (umbralAlto_V c) diferencialAlto_V)
      then with_nivel BATT_HIGH s
      else if F32.ltb voltajeBateria_V
                      (F32.sub (umbralMedio_V c) diferencialMedio_V)
      then with_nivel BATT_LOW s
      else s
  | BATT_LOW =>
      if F32.geb voltajeBateria_V (F32.add (umbralMedio_V c) diferencialMedio_V)
      then with_nivel BATT_MID s
      else s
  end.

(** Step 1 of [tick]: the injected value when one is in use, a reading
    otherwise. *)
Definition medir (s : AdaptiveTXWSN) (hw : Board) : F32.float * Board :=
  if _usarLecturaInyectada s then (_voltajeInyectado_V s, hw)
  else readBatteryVolts s hw.

Definition tick (s : AdaptiveTXWSN) (hw : Board)
  : bool * AdaptiveTXWSN * Board :=
  let '(voltajeBateria_V, hw1) := medir s hw in
  let s1 := with_ultimo voltajeBateria_V s in
  if F32.ltb voltajeBateria_V (corteVoltaje_V (_configuracion s1))
  then (false, with_corte true s1, hw1)
  else
    let s2 := with_corte false s1 in
    let s3 := actualizarNivelConHisteresis voltajeBateria_V s2 in
    let ahoraMs := millis hw1 in
    if 0 <=? to_int32 (wrap32 (ahoraMs - _msProximoEnvio s3))
    then (true, with_proximo (wrap32 (ahoraMs + currentPeriod s3)) s3, hw1)
    else (false, s3, hw1).

Definition setBatteryVolts (voltajeBateria_V : F32.float) (s : AdaptiveTXWSN)
  : AdaptiveTXWSN :=
  with_inyectado voltajeBateria_V s.

Definition setPeriods (alto_ms medio_ms bajo_ms : Z) (s : AdaptiveTXWSN)
  : AdaptiveTXWSN :=
  let c := _configuracion s in
  with_cfg (mkCfg (pinAdcBateria c) (voltajeReferenciaAdc c)
                  (divisorRArriba_k c) (divisorRAbajo_k c)
                  (muestrasPromedioAdc c)
                  (umbralAlto_V c) (umbralMedio_V c) (fraccionHisteresis c)
                  alto_ms medio_ms bajo_ms
                  (corteVoltaje_V c)) s.

Definition setThresholds (alto_V medio_V : F32.float) (s : AdaptiveTXWSN)
  : AdaptiveTXWSN :=
  let c := _configuracion s in
  with_cfg (mkCfg (pinAdcBateria c) (voltajeReferenciaAdc c)
                  (divisorRArriba_k c) (divisorRAbajo_k c)
                  (muestrasPromedioAdc c)
                  alto_V medio_V (fraccionHisteresis c)
                  (periodoAlto_ms c) (periodoMedio_ms c) (periodoBajo_ms c)
                  (corteVoltaje_V c)) s.

Definition setHysteresisPct (fraccion : F32.float) (s : AdaptiveTXWSN)
  : AdaptiveTXWSN :=
  let c := _configuracion s in
  with_cfg (mkCfg (pinAdcBateria c) (voltajeReferenciaAdc c)
                  (divisorRArriba_k c) (divisorRAbajo_k c)
                  (muestrasPromedioAdc c)
                  (umbralAlto_V c) (umbralMedio_V c) fraccion
                  (periodoAlto_ms c) (periodoMedio_ms c) (periodoBajo_ms c)
                  (corteVoltaje_V c)) s.

(** ** Public mutators after initialisation, and runs of calls

    [level], [lastVolts], [isCutoff] and [currentPeriod] are [const]: they
    are the projections above and cannot change the object. *)

Inductive Op : Type :=
  | OpTick
  | OpSetBatteryVolts (v : F32.float)
  | OpReadBatteryVolts
  | OpSetPeriods (alto_ms medio_ms bajo_ms : Z)
  | OpSetThresholds (alto_V medio_V : F32.float)
  | OpSetHysteresisPct (fraccion : F32.float).

Definition exec (o : Op) (s : AdaptiveTXWSN) (hw : Board)
  : AdaptiveTXWSN * Board :=
  match o with
  | OpTick => let '(_, s', hw') := tick s hw in (s', hw')
  | OpSetBatteryVolts v => (setBatteryVolts v s, hw)
  | OpReadBatteryVolts => (s, snd (readBatteryVolts s hw))
  | OpSetPeriods a m b => (setPeriods a m b s, hw)
  | OpSetThresholds a m => (setThresholds a m s, hw)
  | OpSetHysteresisPct f => (setHysteresisPct f s, hw)
  end.

Definition set_reloj (t : Z) (hw : Board) : Board :=
  mkBoard t (entrada_adc hw) (lecturas_adc hw) (espera_us hw) (pines_entrada hw).

(** A run: each call is made when the millisecond counter reads [t]. *)
Fixpoint run (calls : list (Op * Z)) (s : AdaptiveTXWSN) (hw : Board)
  : AdaptiveTXWSN * Board :=
  match calls with
  | [] => (s, hw)
  | (o, t) :: rest =>
      let '(s', hw') := exec o s (set_reloj t hw) in run rest s' hw'
  end.

(** States of an object on which [begin] has been called. *)
Inductive reachable : AdaptiveTXWSN -> Prop :=
  | reach_begin cfg s0 hw : reachable (fst (begin cfg s0 hw))
  | reach_exec o s hw : reachable s -> reachable (fst (exec o s hw)).

(** ** The hysteresis bands

    As the source computes them: [umbral - umbral*fraccion] and
    [umbral + umbral*fraccion], every operation rounded. *)

Definition bajada (umbral fraccion : F32.float) : F32.float :=
  F32.sub umbral (F32.mul umbral fraccion).

Definition subida (umbral fraccion : F32.float) : F32.float :=
  F32.add umbral (F32.mul umbral fraccion).

(** As the specification writes them: [umbral × (1 − fraccion)] and
    [umbral × (1 + fraccion)], once evaluated in single precision and once
    as exact rationals. *)

Definition spec_bajada (umbral fraccion : F32.float) : F32.float :=
  F32.mul umbral (F32.sub F32.one fraccion).

Definition spec_subida (umbral fraccion : F32.float) : F32.float :=
  F32.mul umbral (F32.add F32.one fraccion).

Definition spec_bajada_Q (umbral fraccion : F32.float) : Q :=
  (F32.to_Q umbral * (1 - F32.to_Q fraccion))%Q.

Definition spec_subida_Q (umbral fraccion : F32.float) : Q :=
  (F32.to_Q umbral * (1 + F32.to_Q fraccion))%Q.

(** Levels next to each other in [LOW < MID < HIGH], or equal. *)
Definition adjacent (a b : Level) : Prop :=
  Z.abs (Level_value a - Level_value b) <= 1.

(** ** Readings of a cycle call *)

(** The voltage step 1 of [tick] obtains. *)
Definition medido (s : AdaptiveTXWSN) (hw : Board) : F32.float :=
  fst (medir s hw).

(** The hard cutoff test of step 2. *)
Definition corta (s : AdaptiveTXWSN) (v : F32.float) : bool :=
  F32.ltb v (corteVoltaje_V (_configuracion s)).

Definition tick_ret (s : AdaptiveTXWSN) (hw : Board) : bool :=
  fst (fst (tick s hw)).

Definition tick_obj (s : AdaptiveTXWSN) (hw : Board) : AdaptiveTXWSN :=
  snd (fst (tick s hw)).

Definition tick_hw (s : AdaptiveTXWSN) (hw : Board) : Board :=
  snd (tick s hw).

(** [now] has reached or passed [due] in the wrap-around order of the
    32-bit clock: the test [(int32_t)(now - due) >= 0] of step 4. *)
Definition due_reached (now due : Z) : bool :=
  0 <=? to_int32 (wrap32 (now - due)).

(** The period of a level under a configuration. *)
Definition period_of (c : Cfg) (l : Level) : Z :=
  match l with
  | BATT_HIGH => periodoAlto_ms c
  | BATT_MID => periodoMedio_ms c
  | BATT_LOW => periodoBajo_ms c
  end.

(** ** Calls of the public interface, [begin] included, and their runs *)

Inductive Call : Type :=
  | CallOp (o : Op)
  | CallBegin (cfg : Cfg).

Definition exec_call (c : Call) (s : AdaptiveTXWSN) (hw : Board)
  : AdaptiveTXWSN * Board :=
  match c with
  | CallOp o => exec o s hw
  | CallBegin cfg => begin cfg s hw
  end.

Fixpoint run_calls (calls : list (Call * Z)) (s : AdaptiveTXWSN) (hw : Board)
  : AdaptiveTXWSN * Board :=
  match calls with
  | [] => (s, hw)
  | (c, t) :: rest =>
      let '(s', hw') := exec_call c s (set_reloj t hw) in run_calls rest s' hw'
  end.

(** The value the last [setBatteryVolts] of a run injected, [v0] if none. *)
Fixpoint last_injected (calls : list (Call * Z)) (v0 : F32.float) : F32.float :=
  match calls with
  | [] => v0
  | (CallOp (OpSetBatteryVolts v), _) :: rest => last_injected rest v
  | _ :: rest => last_injected rest v0
  end.

(** ** Dead-bands *)

(** Membership of a voltage in the dead-band of a level, with the bands the
    code computes. *)
Definition in_band (c : Cfg) (l : Level) (v : F32.float) : Prop :=
  let f := fraccionHisteresis c in
  match l with
  | BATT_HIGH => F32.geb v (bajada (umbralAlto_V c) f) = true
  | BATT_MID =>
      F32.geb v (bajada (umbralMedio_V c) f) = true /\
      F32.ltb v (subida (umbralAlto_V c) f) = true
  | BATT_LOW => F32.ltb v (subida (umbralMedio_V c) f) = true
  end.

(** The same with the bands as the specification writes them, evaluated in
    single precision. *)
Definition spec_in_band (c : Cfg) (l : Level) (v : F32.float) : Prop :=
  let f := fraccionHisteresis c in
  match l with
  | BATT_HIGH => F32.geb v (spec_bajada (umbralAlto_V c) f) = true
  | BATT_MID =>
      F32.geb v (spec_bajada (umbralMedio_V c) f) = true /\
      F32.ltb v (spec_subida (umbralAlto_V c) f) = true
  | BATT_LOW => F32.ltb v (spec_subida (umbralMedio_V c) f) = true
  end.

(** And with the bands as exact rationals. *)
Definition spec_in_band_Q (c : Cfg) (l : Level) (v : F32.float) : Prop :=
  let f := fraccionHisteresis c in
  match l with
  | BATT_HIGH => (spec_bajada_Q (umbralAlto_V c) f <= F32.to_Q v)%Q
  | BATT_MID =>
      (spec_bajada_Q (umbralMedio_V c) f <= F32.to_Q v)%Q /\
      (F32.to_Q v < spec_subida_Q (umbralAlto_V c) f)%Q
  | BATT_LOW => (F32.to_Q v < spec_subida_Q (umbralMedio_V c) f)%Q
  end.

(** Operations that leave the thresholds and the hysteresis fraction alone. *)
Definition keeps_bands (o : Op) : bool :=
  match o with
  | OpSetThresholds _ _ | OpSetHysteresisPct _ => false
  | _ => true
  end.

(** Every call of the run keeps the bands, and every cycle call of the run
    measures a voltage inside the band [band] of level [l]. *)
Fixpoint stays_in_band (band : Cfg -> Level -> F32.float -> Prop) (l : Level)
    (calls : list (Op * Z)) (s : AdaptiveTXWSN) (hw : Board) : Prop :=
  match calls with
  | [] => True
  | (o, t) :: rest =>
      keeps_bands o = true /\
      match o with
      | OpTick => band (_configuracion s) l (medido s (set_reloj t hw))
      | _ => True
      end /\
      stays_in_band band l rest
        (fst (exec o s (set_reloj t hw))) (snd (exec o s (set_reloj t hw)))
  end.

(** ** The samples a reading consumes *)

(** Sum of the [n] answers of [analogRead] from the [k]-th on. *)
Fixpoint suma_adc (feed : nat -> Z) (k n : nat) : Z :=
  match n with
  | O => 0
  | S n' => feed k + suma_adc feed (S k) n'
  end.

(** The number of samples [readBatteryVolts] takes when a pin is set:
    [max((uint8_t)1, muestrasPromedioAdc)]. *)
Definition nMuestras_de (c : Cfg) : nat :=
  Z.to_nat (Z.max 1 (muestrasPromedioAdc c)).

(** The number of [analogRead] calls one cycle makes. *)
Definition lecturas_de_tick (s : AdaptiveTXWSN) : nat :=
  if _usarLecturaInyectada s then O
  else if pinAdcBateria (_configuracion s) <? 0 then O
  else nMuestras_de (_configuracion s).

(** ** The order behind the float comparisons

    [SFcompare] orders the non-NaN values by sign class, then exponent,
    then mantissa; [float_key] is that triple. *)
Definition float_key (x : spec_float) : Z * Z * Z :=
  match x with
  | S754_infinity true => (-2, 0, 0)
  | S754_finite true m e => (-1, - e, - Zpos m)
  | S754_zero _ => (0, 0, 0)
  | S754_nan => (0, 0, 0)
  | S754_finite false m e => (1, e, Zpos m)
  | S754_infinity false => (2, 0, 0)
  end.

Definition key_lt (a b : Z * Z * Z) : Prop :=
  let '(c1, e1, m1) := a in
  let '(c2, e2, m2) := b in
  c1 < c2 \/ (c1 = c2 /\ (e1 < e2 \/ (e1 = e2 /\ m1 < m2))).

Definition no_nan (x : spec_float) : Prop :=
  match x with S754_nan => False | _ => True end.

(** Turns float comparisons in the context into facts about keys (with the
    two characterisation lemmas [lk] and [gk]) and closes the goal by linear
    arithmetic. *)
Ltac key_order lk gk :=
  repeat match goal with
  | H : F32.ltb _ _ = true |- _ => apply lk in H
  | H : F32.geb _ _ = true |- _ => apply gk in H
  | H : F32.ltb ?a ?b = false |- _ =>
      assert (~ (no_nan a /\ no_nan b /\ key_lt (float_key a) (float_key b)))
        by (rewrite <- lk, H; discriminate);
      clear H
  | H : F32.geb ?a ?b = false |- _ =>
      assert (~ (no_nan a /\ no_nan b /\ ~ key_lt (float_key a) (float_key b)))
        by (rewrite <- gk, H; discriminate);
      clear H
  end;
  repeat match goal with
  | |- context [float_key ?x] =>
      let c := fresh "c" in let e := fresh "e" in let m := fresh "m" in
      destruct (float_key x) as [[c e] m]
  | H : context [float_key ?x] |- _ =>
      let c := fresh "c" in let e := fresh "e" in let m := fresh "m" in
      destruct (float_key x) as [[c e] m]
  end;
  unfold key_lt in *; intuition lia.


(** ** The classifier as a function of the level *)

(** The level [actualizarNivelConHisteresis] leaves, from the level it
    finds. *)
Definition nivel_siguiente (c : Cfg) (v : F32.float) (l : Level) : Level :=
  let f := fraccionHisteresis c in
  match l with
  | BATT_HIGH =>
      if F32.ltb v (bajada (umbralAlto_V c) f) then BATT_MID else BATT_HIGH
  | BATT_MID =>
      if F32.geb v (subida (umbralAlto_V c) f) then BATT_HIGH
      else if F32.ltb v (bajada (umbralMedio_V c) f) then BATT_LOW
      else BATT_MID
  | BATT_LOW =>
      if F32.geb v (subida (umbralMedio_V c) f) then BATT_MID else BATT_LOW
  end.

(** ** Runs of cut-off cycles *)

(** Every call of the run is a cycle call whose measurement is cut off. *)
Fixpoint all_cut (calls : list (Op * Z)) (s : AdaptiveTXWSN) (hw : Board)
  : Prop :=
  match calls with
  | [] => True
  | (o, t) :: rest =>
      o = OpTick /\
      corta s (medido s (set_reloj t hw)) = true /\
      all_cut rest
        (fst (exec o s (set_reloj t hw))) (snd (exec o s (set_reloj t hw)))
  end.

(** A board wired to pin 0 whose lower divider resistance is given as 0. *)
Definition Cfg_sin_divisor : Cfg :=
  mkCfg 0 (F32.lit 5 1) (F32.lit 100 1) (S754_zero false) 8
        (F32.lit 390 100) (F32.lit 360 100) (F32.lit 3 100)
        5000 15000 120000
        (F32.lit 340 100).

(** ** Concrete values *)

Definition V (num den : Z) : F32.float := F32.lit num den.

(** An instance with static storage before [begin]: the configuration holds
    its default member initialisers, every other field is zero. *)
Definition obj_zero : AdaptiveTXWSN :=
  mkObj Cfg_default BATT_LOW 0 (S754_zero false) false false (S754_zero false).

Definition hw_zero : Board := mkBoard 0 (fun _ => 0) 0 0 [].

Definition obj_at (c : Cfg) (l : Level) (due : Z) : AdaptiveTXWSN :=
  with_nivel l (with_proximo due (fst (begin c obj_zero hw_zero))).

(** The object right after [begin] with the default configuration on a
    zero-initialised instance at clock 0. *)
Definition obj_begun : AdaptiveTXWSN := fst (begin Cfg_default obj_zero hw_zero).

(** A node whose LOW period is 30 days, brought to LOW by two cycles at an
    injected 3.45 V; its due-time is then 15000. *)
Definition obj_low_30d : AdaptiveTXWSN :=
  fst (run [(OpSetPeriods 5000 15000 2592000000, 0);
            (OpSetBatteryVolts (V 345 100), 0);
            (OpTick, 0); (OpTick, 1000)] obj_begun hw_zero).

(** A node with an 8 % hysteresis fraction, brought to MID by one cycle at
    an injected 3.50 V. *)
Definition obj_mid_8pct : AdaptiveTXWSN :=
  fst (run [(OpSetHysteresisPct (V 8 100), 0);
            (OpSetBatteryVolts (V 350 100), 0);
            (OpTick, 0)] obj_begun hw_zero).

(** Three cycles at injected 3.80 V, 3.55 V and 4.00 V. *)
Definition calls_mid_band : list (Op * Z) :=
  [(OpSetBatteryVolts (V 380 100), 0); (OpTick, 0);
   (OpSetBatteryVolts (V 355 100), 10); (OpTick, 10);
   (OpSetBatteryVolts (V 400 100), 20); (OpTick, 20)].

(** The default configuration with the battery divider on pin 0. *)
Definition Cfg_pin0 : Cfg :=
  mkCfg 0 (F32.lit 5 1) (F32.lit 100 1) (F32.lit 33 1) 8
        (F32.lit 390 100) (F32.lit 360 100) (F32.lit 3 100)
        5000 15000 120000
        (F32.lit 340 100).

(** A board whose ADC answers 0 to its first 24 reads and 200 from then
    on. *)
Definition hw_recupera : Board :=
  mkBoard 0 (fun k => if (k <? 24)%nat then 0 else 200) 0 0 [].

Example lit_3_90 : V 390 100 = S754_finite false 16357786 (-22).
Proof. reflexivity. Qed.

Example lit_0_03 : V 3 100 = S754_finite false 16106127 (-29).
Proof. reflexivity. Qed.

Example lit_1023 : F32.of_Z 1023 = S754_finite false 16760832 (-14).
Proof. reflexivity. Qed.

Example Cfg_default_valid :
  forallb F32.valid
    [voltajeReferenciaAdc Cfg_default; divisorRArriba_k Cfg_default;
     divisorRAbajo_k Cfg_default; umbralAlto_V Cfg_default;
     umbralMedio_V Cfg_default; fraccionHisteresis Cfg_default;
     corteVoltaje_V Cfg_default] = true.
Proof. reflexivity. Qed.

(** Scenario A: from HIGH, 3.95 V keeps HIGH and 3.70 V gives MID. *)
Example scenario_A :
  let s := obj_at Cfg_default BATT_HIGH 0 in
  level (actualizarNivelConHisteresis (V 395 100) s) = BATT_HIGH /\
  level (actualizarNivelConHisteresis (V 370 100) s) = BATT_MID.
Proof. split; reflexivity. Qed.

(** Scenario B: from MID, 4.02 V gives HIGH. *)
Example scenario_B :
  level (actualizarNivelConHisteresis (V 402 100)
           (obj_at Cfg_default BATT_MID 0)) = BATT_HIGH.
Proof. reflexivity. Qed.

(** Scenario C: 3.35 V is below the 3.40 V cutoff although the timer is due. *)
Example scenario_C :
  let s := setBatteryVolts (V 335 100) (obj_at Cfg_default BATT_HIGH 0) in
  let '(r, s', _) := tick s (set_reloj 7 hw_zero) in
  r = false /\ isCutoff s' = true.
Proof. vm_compute. split; reflexivity. Qed.

(** Scenario D: period 5000, due-time 1000. *)
Example scenario_D :
  let s := setBatteryVolts (V 400 100) (obj_at Cfg_default BATT_HIGH 1000) in
  let '(r1, s1, _) := tick s (set_reloj 1000 hw_zero) in
  let '(r2, _, _) := tick s1 (set_reloj 5999 hw_zero) in
  r1 = true /\ _msProximoEnvio s1 = 6000 /\ r2 = false.
Proof. vm_compute. repeat split. Qed.

(** * Properties *)

(** ** Comparisons of floats *)

Lemma SFcompare_antisym (a b : spec_float) :
  SFcompare b a = option_map CompOpp (SFcompare a b).
Proof.
  destruct a as [sa | sa | | sa ma ea], b as [sb | sb | | sb mb eb];
    try destruct sa; try destruct sb; simpl; try reflexivity;
    rewrite (Z.compare_antisym ea eb);
    destruct (ea ?= eb); simpl; try reflexivity;
    rewrite (Pos.compare_cont_antisym ma mb Eq); simpl;
    try rewrite CompOpp_involutive; reflexivity.
Qed.

Lemma geb_true_ltb_false (v t : F32.float) :
  F32.geb v t = true -> F32.ltb v t = false.
Proof.
  unfold F32.geb, F32.ltb, SFleb, SFltb.
  rewrite (SFcompare_antisym v t).
  destruct (SFcompare v t) as [[ | | ] | ]; simpl; congruence.
Qed.

Lemma ltb_true_geb_false (v t : F32.float) :
  F32.ltb v t = true -> F32.geb v t = false.
Proof.
  intros H. destruct (F32.geb v t) eqn:G; [ | reflexivity ].
  apply geb_true_ltb_false in G. congruence.
Qed.

(** ** The classification step *)

Lemma actualizar_frame (v : F32.float) (s : AdaptiveTXWSN) :
  actualizarNivelConHisteresis v s
  = with_nivel (level (actualizarNivelConHisteresis v s)) s.
Proof.
  destruct s as [c l t u b i j]. unfold actualizarNivelConHisteresis, level.
  simpl. destruct l; repeat match goal with
    | |- context [if ?x then _ else _] => destruct x
    end; reflexivity.
Qed.

Lemma actualizar_level (v : F32.float) (s : AdaptiveTXWSN) :
  let c := _configuracion s in
  level (actualizarNivelConHisteresis v s) =
  match level s with
  | BATT_HIGH =>
      if F32.ltb v (bajada (umbralAlto_V c) (fraccionHisteresis c))
      then BATT_MID else BATT_HIGH
  | BATT_MID =>
      if F32.geb v (subida (umbralAlto_V c) (fraccionHisteresis c))
      then BATT_HIGH
      else if F32.ltb v (bajada (umbralMedio_V c) (fraccionHisteresis c))
      then BATT_LOW else BATT_MID
  | BATT_LOW =>
      if F32.geb v (subida (umbralMedio_V c) (fraccionHisteresis c))
      then BATT_MID else BATT_LOW
  end.
Proof.
  destruct s as [c l t u b i j].
  unfold actualizarNivelConHisteresis, level, bajada, subida. simpl.
  destruct l; repeat match goal with
    | |- context [if ?x then _ else _] => destruct x
    end; reflexivity.
Qed.

(** C1 (as amended). One classification step, for every configuration and
    every voltage (finite or not), touches nothing but the level and follows
    the hysteresis rules with the bands the code computes in single
    precision, [umbral - umbral*fraccion] and [umbral + umbral*fraccion]:
    from HIGH the level becomes MID iff [v < alto - alto*f] and stays HIGH
    otherwise; from MID it becomes HIGH iff [v >= alto + alto*f], else LOW
    iff [v < medio - medio*f], else stays MID; from LOW it becomes MID iff
    [v >= medio + medio*f] and stays LOW otherwise. *)
Theorem C1_hysteresis_step (v : F32.float) (s : AdaptiveTXWSN) :
  let c := _configuracion s in
  let f := fraccionHisteresis c in
  let s' := actualizarNivelConHisteresis v s in
  s' = with_nivel (level s') s /\
  match level s with
  | BATT_HIGH =>
      (level s' = BATT_MID <-> F32.ltb v (bajada (umbralAlto_V c) f) = true) /\
      (level s' = BATT_HIGH <-> F32.ltb v (bajada (umbralAlto_V c) f) = false)
  | BATT_MID =>
      (level s' = BATT_HIGH <-> F32.geb v (subida (umbralAlto_V c) f) = true) /\
      (level s' = BATT_LOW <->
         F32.geb v (subida (umbralAlto_V c) f) = false /\
         F32.ltb v (bajada (umbralMedio_V c) f) = true) /\
      (level s' = BATT_MID <->
         F32.geb v (subida (umbralAlto_V c) f) = false /\
         F32.ltb v (bajada (umbralMedio_V c) f) = false)
  | BATT_LOW =>
      (level s' = BATT_MID <-> F32.geb v (subida (umbralMedio_V c) f) = true) /\
      (level s' = BATT_LOW <-> F32.geb v (subida (umbralMedio_V c) f) = false)
  end.
Proof.
  cbv zeta. split; [apply actualizar_frame | ].
  pose proof (actualizar_level v s) as E. cbv zeta in E. rewrite E.
  destruct (level s);
    repeat match goal with
    | |- context [if ?x then _ else _] => destruct x
    end; repeat split; intros; try discriminate; try reflexivity;
    try (destruct H; discriminate).
Qed.

(** C1 (as stated) fails on the default configuration. At level HIGH and
    [v = 15867052 * 2^-22] (about 3.7829995 V) the voltage is below
    [3.90 × (1 − 0.03)], both when that product is evaluated in single
    precision and as an exact rational, so the claim asks for MID; the code
    compares with [3.90 - 3.90*0.03], which rounds to [v] itself, and stays
    HIGH. *)
Lemma C1_counterexample :
  let s := obj_at Cfg_default BATT_HIGH 0 in
  let c := _configuracion s in
  let v := S754_finite false 15867052 (-22) in
  let s' := actualizarNivelConHisteresis v s in
  F32.valid v = true /\ level s = BATT_HIGH /\
  ~ (level s' = BATT_MID <->
     F32.ltb v (spec_bajada (umbralAlto_V c) (fraccionHisteresis c)) = true) /\
  ~ (level s' = BATT_MID <->
     (F32.to_Q v < spec_bajada_Q (umbralAlto_V c) (fraccionHisteresis c))%Q).
Proof.
  cbv zeta.
  assert (L : level (actualizarNivelConHisteresis
                       (S754_finite false 15867052 (-22))
                       (obj_at Cfg_default BATT_HIGH 0)) = BATT_HIGH)
    by (vm_compute; reflexivity).
  repeat split.
  - intros [_ H]. rewrite L in H.
    assert (X : BATT_HIGH = BATT_MID) by (apply H; vm_compute; reflexivity).
    discriminate X.
  - intros [_ H]. rewrite L in H.
    assert (X : BATT_HIGH = BATT_MID) by (apply H; vm_compute; reflexivity).
    discriminate X.
Qed.

(** ** The cycle call *)

Lemma muestrear_reloj (pin : Z) (n : nat) :
  forall acc hw,
    reloj_ms (snd (muestrear pin n acc hw)) = reloj_ms hw /\
    forall t,
      muestrear pin n acc (set_reloj t hw)
      = (fst (muestrear pin n acc hw), set_reloj t (snd (muestrear pin n acc hw))).
Proof.
  induction n as [ | n IH]; intros acc hw; simpl.
  - split; [reflexivity | intros t; reflexivity].
  - destruct (IH (wrap32 (acc + entrada_adc hw (lecturas_adc hw)))
                (delayMicroseconds 250 (snd (analogRead pin hw)))) as [R T].
    split.
    + exact R.
    + intros t. exact (T t).
Qed.

Lemma medir_reloj (s : AdaptiveTXWSN) (hw : Board) :
  reloj_ms (snd (medir s hw)) = reloj_ms hw /\
  forall t,
    medir s (set_reloj t hw) = (medido s hw, set_reloj t (snd (medir s hw))).
Proof.
  unfold medido, medir, readBatteryVolts.
  destruct (_usarLecturaInyectada s); [split; reflexivity | ].
  destruct (pinAdcBateria (_configuracion s) <? 0); [split; reflexivity | ].
  set (n := Z.to_nat (Z.max 1 (muestrasPromedioAdc (_configuracion s)))).
  destruct (muestrear_reloj (pinAdcBateria (_configuracion s)) n 0 hw) as [R T].
  split.
  - destruct (muestrear (pinAdcBateria (_configuracion s)) n 0 hw); exact R.
  - intros t. rewrite (T t).
    destruct (muestrear (pinAdcBateria (_configuracion s)) n 0 hw); reflexivity.
Qed.

Lemma currentPeriod_period_of (s : AdaptiveTXWSN) :
  currentPeriod s = period_of (_configuracion s) (level s).
Proof. unfold currentPeriod, level. destruct (_nivelEnergeticoActual s); reflexivity. Qed.

Lemma actualizar_level_frame (v : F32.float) (s : AdaptiveTXWSN) (u : F32.float)
    (b : bool) :
  level (actualizarNivelConHisteresis v (with_corte b (with_ultimo u s)))
  = level (actualizarNivelConHisteresis v s).
Proof.
  rewrite !actualizar_level. reflexivity.
Qed.

(** [tick] in terms of its four steps. *)
Lemma tick_eq (s : AdaptiveTXWSN) (hw : Board) :
  tick s hw =
  let v := medido s hw in
  let hw1 := snd (medir s hw) in
  if corta s v then (false, with_corte true (with_ultimo v s), hw1)
  else
    let s3 := with_nivel (level (actualizarNivelConHisteresis v s))
                (with_corte false (with_ultimo v s)) in
    if due_reached (reloj_ms hw) (_msProximoEnvio s)
    then (true,
          with_proximo
            (wrap32 (reloj_ms hw + period_of (_configuracion s) (level s3))) s3,
          hw1)
    else (false, s3, hw1).
Proof.
  unfold tick, medido, corta, due_reached, millis.
  pose proof (proj1 (medir_reloj s hw)) as R.
  destruct (medir s hw) as [v hw1]. simpl in *.
  destruct (F32.ltb v (corteVoltaje_V (_configuracion s))); [reflexivity | ].
  rewrite R.
  rewrite (actualizar_frame v (with_corte false (with_ultimo v s))).
  rewrite currentPeriod_period_of.
  rewrite (actualizar_level_frame v s v false). simpl.
  reflexivity.
Qed.

(** C2. After any cycle call [isCutoff()] is true exactly when the voltage
    measured in that call (which is what [lastVolts()] then returns) is
    strictly below [corteVoltaje_V], whatever the flag, the level and the
    due-time were before; and when it is below, the call returns false. *)
Theorem C2_cutoff_recomputed (s : AdaptiveTXWSN) (hw : Board) :
  let v := medido s hw in
  let cutoff := corteVoltaje_V (_configuracion s) in
  lastVolts (tick_obj s hw) = v /\
  (isCutoff (tick_obj s hw) = true <-> F32.ltb v cutoff = true) /\
  (F32.ltb v cutoff = true -> tick_ret s hw = false).
Proof.
  cbv zeta. unfold tick_obj, tick_ret. rewrite tick_eq. cbv zeta.
  unfold corta, lastVolts, isCutoff.
  destruct (F32.ltb (medido s hw) (corteVoltaje_V (_configuracion s))) eqn:G.
  - simpl. intuition congruence.
  - destruct (due_reached (reloj_ms hw) (_msProximoEnvio s)); simpl;
      intuition congruence.
Qed.

Lemma due_reached_small (now due : Z) :
  due_reached now due = (wrap32 (now - due) <? 2 ^ 31).
Proof.
  unfold due_reached, to_int32, wrap32.
  pose proof (Z.mod_pos_bound (now - due) (2 ^ 32) eq_refl) as B.
  destruct (Z.ltb_spec ((now - due) mod 2 ^ 32) (2 ^ 31)) as [H | H].
  - apply Z.leb_le. lia.
  - apply Z.leb_gt. lia.
Qed.

(** The timer step of a cycle call that passes the gate, in terms of the
    due-test. *)
Lemma tick_timer (s : AdaptiveTXWSN) (hw : Board) :
  corta s (medido s hw) = false ->
  let T := _msProximoEnvio s in
  let now := reloj_ms hw in
  let s' := tick_obj s hw in
  let P := period_of (_configuracion s) (level s') in
  level s' = level (actualizarNivelConHisteresis (medido s hw) s) /\
  currentPeriod s' = P /\
  (due_reached now T = true ->
     tick_ret s hw = true /\ _msProximoEnvio s' = wrap32 (now + P)) /\
  (due_reached now T = false ->
     tick_ret s hw = false /\ _msProximoEnvio s' = T).
Proof.
  intros G. cbv zeta. unfold tick_obj, tick_ret. rewrite tick_eq. cbv zeta.
  rewrite G.
  destruct (due_reached (reloj_ms hw) (_msProximoEnvio s)); simpl;
    rewrite currentPeriod_period_of; unfold level; simpl;
    (split; [reflexivity | split; [reflexivity | ] ]).
  - split; [intros _; split; reflexivity | discriminate].
  - split; [discriminate | intros _; split; reflexivity].
Qed.

(** C3. For a cycle call that passes the cutoff gate, with due-time [T],
    clock reading [now] and [P] the period of the level the call has just
    computed. [now] has reached or passed [T] when the way from [T] forward
    to [now] round the 32-bit clock, [(now - T) mod 2^32], is shorter than
    [2^31], and is before [T] otherwise; for the clock values themselves
    that is [T <= now < T + 2^31], respectively [now < T <= now + 2^31].
    In the first case the call returns true and the due-time becomes
    [now + P] in 32-bit unsigned arithmetic, which is the plain sum
    whenever that fits 32 bits; in the second it returns false and the
    due-time stays [T]. *)
Theorem C3_timer (s : AdaptiveTXWSN) (hw : Board) :
  corta s (medido s hw) = false ->
  let T := _msProximoEnvio s in
  let now := reloj_ms hw in
  let s' := tick_obj s hw in
  let P := period_of (_configuracion s) (level s') in
  level s' = level (actualizarNivelConHisteresis (medido s hw) s) /\
  currentPeriod s' = P /\
  (wrap32 (now - T) < 2 ^ 31 ->
     tick_ret s hw = true /\ _msProximoEnvio s' = wrap32 (now + P) /\
     (0 <= now + P < 2 ^ 32 -> _msProximoEnvio s' = now + P)) /\
  (2 ^ 31 <= wrap32 (now - T) ->
     tick_ret s hw = false /\ _msProximoEnvio s' = T) /\
  (T <= now < T + 2 ^ 31 ->
     tick_ret s hw = true /\ _msProximoEnvio s' = wrap32 (now + P)) /\
  (now < T <= now + 2 ^ 31 ->
     tick_ret s hw = false /\ _msProximoEnvio s' = T).
Proof.
  intros G. cbv zeta.
  destruct (tick_timer s hw G) as (L & C & Y & N). cbv zeta in Y, N.
  rewrite due_reached_small in Y, N.
  assert (Yes : wrap32 (reloj_ms hw - _msProximoEnvio s) < 2 ^ 31 ->
                tick_ret s hw = true /\
                _msProximoEnvio (tick_obj s hw)
                = wrap32 (reloj_ms hw
                          + period_of (_configuracion s) (level (tick_obj s hw)))).
  { intros B. apply Y. apply Z.ltb_lt. exact B. }
  assert (No : 2 ^ 31 <= wrap32 (reloj_ms hw - _msProximoEnvio s) ->
               tick_ret s hw = false /\
               _msProximoEnvio (tick_obj s hw) = _msProximoEnvio s).
  { intros B. apply N. apply Z.ltb_ge. exact B. }
  split; [exact L | split; [exact C | ] ].
  split; [ | split; [exact No | split ] ].
  - intros B. destruct (Yes B) as [R D].
    split; [exact R | split; [exact D | ] ].
    intros F. rewrite D. unfold wrap32. apply Z.mod_small. exact F.
  - intros B. apply Yes. unfold wrap32.
    change (2 ^ 31) with 2147483648 in *. change (2 ^ 32) with 4294967296.
    rewrite Z.mod_small; lia.
  - intros B. apply No. unfold wrap32.
    change (2 ^ 31) with 2147483648 in *. change (2 ^ 32) with 4294967296.
    assert (E : (reloj_ms hw - _msProximoEnvio s) mod 4294967296
                = reloj_ms hw - _msProximoEnvio s + 4294967296).
    { symmetry. apply (Z.mod_unique _ _ (-1)); lia. }
    rewrite E. lia.
Qed.

(** At MID with due-time 1000, a cycle at clock 1000 measuring 4.10 V moves
    to HIGH, fires and sets the due-time to 6000; the next cycle at clock
    5999 is before it and does not fire. *)
Lemma C3_timer_witness :
  let s := setBatteryVolts (V 410 100) (obj_at Cfg_default BATT_MID 1000) in
  let hw := set_reloj 1000 hw_zero in
  level (tick_obj s hw) = BATT_HIGH /\
  tick_ret s hw = true /\ _msProximoEnvio (tick_obj s hw) = 6000 /\
  tick_ret (tick_obj s hw) (set_reloj 5999 hw_zero) = false.
Proof.
  cbv zeta.
  pose proof (C3_timer
                (setBatteryVolts (V 410 100) (obj_at Cfg_default BATT_MID 1000))
                (set_reloj 1000 hw_zero) eq_refl) as H.
  cbv zeta in H.
  destruct H as (L & _ & Y & _).
  destruct (Y eq_refl) as (R & D & _).
  split; [ | split; [ | split ] ].
  - rewrite L. vm_compute. reflexivity.
  - exact R.
  - rewrite D. vm_compute. reflexivity.
  - assert (G : corta (tick_obj (setBatteryVolts (V 410 100)
                                   (obj_at Cfg_default BATT_MID 1000))
                         (set_reloj 1000 hw_zero))
                  (medido (tick_obj (setBatteryVolts (V 410 100)
                                       (obj_at Cfg_default BATT_MID 1000))
                             (set_reloj 1000 hw_zero))
                     (set_reloj 5999 hw_zero)) = false)
      by (vm_compute; reflexivity).
    pose proof (C3_timer _ _ G) as H2. cbv zeta in H2.
    destruct H2 as (_ & _ & _ & N & _).
    apply N. vm_compute. discriminate.
Defined.

(** ** The wrap-around order of the clock *)

Lemma wrap32_sub (a b : Z) : wrap32 (wrap32 a - wrap32 b) = wrap32 (a - b).
Proof. unfold wrap32. symmetry. apply Zminus_mod. Qed.

Lemma due_reached_true_order (tn td : Z) :
  Z.abs (tn - td) < 2 ^ 31 ->
  (due_reached (wrap32 tn) (wrap32 td) = true <-> td <= tn).
Proof.
  intros A. rewrite due_reached_small, wrap32_sub. unfold wrap32.
  rewrite Z.ltb_lt.
  change (2 ^ 31) with 2147483648 in *. change (2 ^ 32) with 4294967296.
  destruct (Z_le_gt_dec td tn) as [H | H].
  - rewrite Z.mod_small by lia. lia.
  - assert (E : (tn - td) mod 4294967296 = tn - td + 4294967296).
    { symmetry. apply (Z.mod_unique _ _ (-1)); lia. }
    rewrite E. lia.
Qed.

(** C4. In a cycle call that passes the cutoff gate the due-test is the sign
    of the two's-complement reading of [(now - dueTime) mod 2^32]; hence,
    when the stored due-time and the clock reading are the residues of true
    times [td] and [tn] less than [2^31] ms apart, the call fires exactly
    when [td <= tn], whichever of the two has wrapped. *)
Theorem C4_wraparound (s : AdaptiveTXWSN) (hw : Board) (tn td : Z) :
  corta s (medido s hw) = false ->
  reloj_ms hw = wrap32 tn ->
  _msProximoEnvio s = wrap32 td ->
  Z.abs (tn - td) < 2 ^ 31 ->
  tick_ret s hw
  = (0 <=? to_int32 (wrap32 (reloj_ms hw - _msProximoEnvio s))) /\
  (tick_ret s hw = true <-> td <= tn).
Proof.
  intros G N D A.
  assert (E : tick_ret s hw = due_reached (reloj_ms hw) (_msProximoEnvio s)).
  { unfold tick_ret. rewrite tick_eq. cbv zeta. rewrite G.
    destruct (due_reached (reloj_ms hw) (_msProximoEnvio s)); reflexivity. }
  split.
  - exact E.
  - rewrite E, N, D. apply due_reached_true_order. exact A.
Qed.

(** The clock has wrapped ([2^32 + 50] reads 50), the due-time
    [2^32 - 100] has not: the call fires. *)
Lemma C4_wraparound_witness :
  let s := setBatteryVolts (V 400 100)
             (obj_at Cfg_default BATT_HIGH 4294967196) in
  let hw := set_reloj 50 hw_zero in
  tick_ret s hw = true.
Proof.
  cbv zeta.
  apply (proj2 (C4_wraparound
                  (setBatteryVolts (V 400 100)
                     (obj_at Cfg_default BATT_HIGH 4294967196))
                  (set_reloj 50 hw_zero) (2 ^ 32 + 50) (2 ^ 32 - 100)
                  eq_refl eq_refl eq_refl eq_refl)).
  vm_compute. discriminate.
Defined.

(** ** Which call writes which field *)

Lemma tick_obj_eq (s : AdaptiveTXWSN) (hw : Board) :
  tick_obj s hw =
  let v := medido s hw in
  if corta s v then with_corte true (with_ultimo v s)
  else
    let s3 := with_nivel (level (actualizarNivelConHisteresis v s))
                (with_corte false (with_ultimo v s)) in
    if due_reached (reloj_ms hw) (_msProximoEnvio s)
    then with_proximo
           (wrap32 (reloj_ms hw + period_of (_configuracion s) (level s3))) s3
    else s3.
Proof.
  unfold tick_obj. rewrite tick_eq. cbv zeta.
  destruct (corta s (medido s hw)); [reflexivity | ].
  destruct (due_reached (reloj_ms hw) (_msProximoEnvio s)); reflexivity.
Qed.

Lemma tick_ret_eq (s : AdaptiveTXWSN) (hw : Board) :
  tick_ret s hw =
  negb (corta s (medido s hw)) && due_reached (reloj_ms hw) (_msProximoEnvio s).
Proof.
  unfold tick_ret. rewrite tick_eq. cbv zeta.
  destruct (corta s (medido s hw)); [reflexivity | ].
  destruct (due_reached (reloj_ms hw) (_msProximoEnvio s)); reflexivity.
Qed.

Lemma tick_hw_eq (s : AdaptiveTXWSN) (hw : Board) :
  tick_hw s hw = snd (medir s hw).
Proof.
  unfold tick_hw. rewrite tick_eq. cbv zeta.
  destruct (corta s (medido s hw)); [reflexivity | ].
  destruct (due_reached (reloj_ms hw) (_msProximoEnvio s)); reflexivity.
Qed.

Lemma exec_tick (s : AdaptiveTXWSN) (hw : Board) :
  exec OpTick s hw = (tick_obj s hw, tick_hw s hw).
Proof.
  unfold exec, tick_obj, tick_hw. destruct (tick s hw) as [[r s'] hw'].
  reflexivity.
Qed.

Lemma adjacent_step (v : F32.float) (s : AdaptiveTXWSN) :
  adjacent (level s) (level (actualizarNivelConHisteresis v s)).
Proof.
  rewrite actualizar_level. cbv zeta. unfold adjacent.
  destruct (level s);
    repeat match goal with
    | |- context [if ?x then _ else _] => destruct x
    end; simpl; lia.
Qed.

(** C6. In every reachable state the level is LOW, MID or HIGH; a call that
    is not a cycle call leaves it as it is, a cycle call leaves it as it is
    when the cutoff gate fires and otherwise gives it the result of the
    classification step; and a classification step keeps the level or moves
    it to a neighbour, never from LOW to HIGH or from HIGH to LOW. *)
Theorem C6_level_invariant (s : AdaptiveTXWSN) :
  reachable s ->
  (level s = BATT_LOW \/ level s = BATT_MID \/ level s = BATT_HIGH) /\
  (forall o hw, o <> OpTick -> level (fst (exec o s hw)) = level s) /\
  (forall hw,
     level (tick_obj s hw) =
     if corta s (medido s hw) then level s
     else level (actualizarNivelConHisteresis (medido s hw) s)) /\
  (forall v,
     let l' := level (actualizarNivelConHisteresis v s) in
     adjacent (level s) l' /\
     ~ (level s = BATT_LOW /\ l' = BATT_HIGH) /\
     ~ (level s = BATT_HIGH /\ l' = BATT_LOW)).
Proof.
  intros _. repeat split.
  - destruct (level s); auto.
  - intros o hw N. destruct o; try reflexivity. contradiction N; reflexivity.
  - intros hw. rewrite tick_obj_eq. cbv zeta.
    destruct (corta s (medido s hw)); [reflexivity | ].
    destruct (due_reached (reloj_ms hw) (_msProximoEnvio s)); reflexivity.
  - apply adjacent_step.
  - intros [A B]. pose proof (adjacent_step v s) as H.
    rewrite A, B in H. unfold adjacent in H. simpl in H. lia.
  - intros [A B]. pose proof (adjacent_step v s) as H.
    rewrite A, B in H. unfold adjacent in H. simpl in H. lia.
Qed.

Lemma C6_level_invariant_witness :
  let s := fst (begin Cfg_default obj_zero hw_zero) in
  adjacent (level s) (level (actualizarNivelConHisteresis (V 300 100) s)).
Proof.
  cbv zeta.
  exact (proj1 (proj2 (proj2 (proj2
           (C6_level_invariant (fst (begin Cfg_default obj_zero hw_zero))
              (reach_begin Cfg_default obj_zero hw_zero))))
           (V 300 100))).
Defined.

(** C7 (as amended). After initialisation the due-time is written by cycle
    calls only, and only by those that return true: such a call sets it to
    [(now + period) mod 2^32], every other call leaves it as it is. The new
    due-time is not earlier than the old one in the wrap-around order
    whenever the lateness [(now - old) mod 2^32] plus the period stays below
    [2^31]. *)
Theorem C7_due_time_writes (o : Op) (s : AdaptiveTXWSN) (hw : Board) :
  let s' := fst (exec o s hw) in
  let old := _msProximoEnvio s in
  (o <> OpTick -> _msProximoEnvio s' = old) /\
  (o = OpTick ->
     (tick_ret s hw = false -> _msProximoEnvio s' = old) /\
     (tick_ret s hw = true ->
        _msProximoEnvio s' = wrap32 (reloj_ms hw + currentPeriod s') /\
        (0 <= currentPeriod s' ->
         wrap32 (reloj_ms hw - old) + currentPeriod s' < 2 ^ 31 ->
         due_reached (_msProximoEnvio s') old = true))).
Proof.
  cbv zeta. split.
  - intros N. destruct o; try reflexivity. contradiction N; reflexivity.
  - intros ->. rewrite exec_tick. simpl fst.
    rewrite tick_ret_eq, tick_obj_eq. cbv zeta.
    destruct (corta s (medido s hw)); simpl.
    + split; [reflexivity | discriminate].
    + destruct (due_reached (reloj_ms hw) (_msProximoEnvio s)) eqn:R; simpl.
      * split; [discriminate | intros _].
        rewrite currentPeriod_period_of. unfold level. simpl.
        split; [reflexivity | ].
        set (P := period_of _ _). intros P0 B.
        rewrite due_reached_small in *.
        apply Z.ltb_lt in R. apply Z.ltb_lt.
        assert (E : wrap32 (wrap32 (reloj_ms hw + P) - _msProximoEnvio s)
                    = wrap32 (reloj_ms hw - _msProximoEnvio s) + P).
        { unfold wrap32 in *.
          rewrite Zminus_mod_idemp_l.
          replace (reloj_ms hw + P - _msProximoEnvio s)
            with (P + (reloj_ms hw - _msProximoEnvio s)) by ring.
          rewrite <- Zplus_mod_idemp_r.
          pose proof (Z.mod_pos_bound (reloj_ms hw - _msProximoEnvio s)
                        (2 ^ 32) eq_refl).
          change (2 ^ 31) with 2147483648 in *.
          change (2 ^ 32) with 4294967296 in *.
          rewrite Z.mod_small; lia. }
        rewrite E. exact B.
      * split; [reflexivity | discriminate].
Qed.

Lemma run_reachable (calls : list (Op * Z)) :
  forall s hw, reachable s -> reachable (fst (run calls s hw)).
Proof.
  induction calls as [ | [o t] rest IH]; intros s hw R; simpl.
  - exact R.
  - pose proof (reach_exec o s (set_reloj t hw) R) as R'.
    destruct (exec o s (set_reloj t hw)) as [s' hw']. simpl in R'.
    apply IH. exact R'.
Qed.

(** C7 (as stated) fails for a period of 30 days (2592000000 ms, a valid
    [uint32_t]). The node is at LOW with due-time 15000; the cycle call at
    clock 15000 fires and writes 2592015000, which is earlier than 15000 in
    the wrap-around order, so the due-time has not advanced and the call one
    millisecond later fires again. *)
Lemma C7_counterexample :
  let s := obj_low_30d in
  let s' := tick_obj s (set_reloj 15000 hw_zero) in
  reachable s /\ level s = BATT_LOW /\ _msProximoEnvio s = 15000 /\
  tick_ret s (set_reloj 15000 hw_zero) = true /\
  _msProximoEnvio s' = 2592015000 /\
  due_reached (_msProximoEnvio s') (_msProximoEnvio s) = false /\
  tick_ret s' (set_reloj 15001 hw_zero) = true.
Proof.
  cbv zeta. split.
  - unfold obj_low_30d. apply run_reachable. apply reach_begin.
  - repeat split; vm_compute; reflexivity.
Qed.

(** ** The cutoff gate *)

(** C8. When the cutoff gate fires the cycle call returns false and writes
    only [lastVoltage] and [cutoffActive]: configuration, level, due-time
    and the injection fields are as before, and neither the result nor the
    object depends on the clock. The level is therefore the one the state
    machine was last in, and the first later cycle that passes the gate
    classifies from it. *)
Theorem C8_cutoff_frame (s : AdaptiveTXWSN) (hw : Board) :
  corta s (medido s hw) = true ->
  let s' := tick_obj s hw in
  tick_ret s hw = false /\
  s' = with_corte true (with_ultimo (medido s hw) s) /\
  (_configuracion s' = _configuracion s /\ level s' = level s /\
   _msProximoEnvio s' = _msProximoEnvio s /\
   _usarLecturaInyectada s' = _usarLecturaInyectada s /\
   _voltajeInyectado_V s' = _voltajeInyectado_V s) /\
  (forall t, tick_ret s (set_reloj t hw) = false /\
             tick_obj s (set_reloj t hw) = s') /\
  (forall hw2, corta s' (medido s' hw2) = false ->
     level (tick_obj s' hw2)
     = level (actualizarNivelConHisteresis (medido s' hw2) s)).
Proof.
  intros G. cbv zeta.
  assert (E : tick_obj s hw = with_corte true (with_ultimo (medido s hw) s)).
  { rewrite tick_obj_eq. cbv zeta. rewrite G. reflexivity. }
  split; [ | split; [ | split; [ | split ] ] ].
  - rewrite tick_ret_eq, G. reflexivity.
  - exact E.
  - rewrite E. repeat split.
  - intros t.
    assert (M : medido s (set_reloj t hw) = medido s hw).
    { unfold medido at 1. rewrite (proj2 (medir_reloj s hw) t). reflexivity. }
    split.
    + rewrite tick_ret_eq, M, G. reflexivity.
    + rewrite tick_obj_eq. cbv zeta. rewrite M, G. symmetry. exact E.
  - intros hw2 G2. rewrite tick_obj_eq. cbv zeta. rewrite G2.
    assert (L : level (actualizarNivelConHisteresis (medido (tick_obj s hw) hw2)
                         (tick_obj s hw))
                = level (actualizarNivelConHisteresis
                           (medido (tick_obj s hw) hw2) s)).
    { rewrite E at 2. apply actualizar_level_frame. }
    destruct (due_reached (reloj_ms hw2) (_msProximoEnvio (tick_obj s hw)));
      unfold level in *; simpl; exact L.
Qed.

(** A node at LOW measures 3.35 V under the 3.40 V cutoff while its timer is
    due: nothing but the two measurement fields changes, and it is still
    at LOW. *)
Lemma C8_cutoff_frame_witness :
  let s := setBatteryVolts (V 335 100) (obj_at Cfg_default BATT_LOW 0) in
  let s' := tick_obj s (set_reloj 7 hw_zero) in
  tick_ret s (set_reloj 7 hw_zero) = false /\
  level s' = BATT_LOW /\ _msProximoEnvio s' = 0.
Proof.
  cbv zeta.
  pose proof (C8_cutoff_frame
                (setBatteryVolts (V 335 100) (obj_at Cfg_default BATT_LOW 0))
                (set_reloj 7 hw_zero) eq_refl) as H.
  cbv zeta in H.
  destruct H as (R & _ & (_ & L & D & _) & _).
  split; [exact R | split].
  - rewrite L. reflexivity.
  - rewrite D. reflexivity.
Defined.

(** ** Measurement *)

(** C9. With no sampling pin ([pinAdcBateria < 0]) and no injected voltage,
    [readBatteryVolts()] returns the stored last measurement without
    touching the hardware, so a cycle call leaves [lastVolts()] at its
    previous value, gates on that value and, past the gate, classifies with
    that value. *)
Theorem C9_no_pin_uses_last (s : AdaptiveTXWSN) (hw : Board) :
  pinAdcBateria (_configuracion s) < 0 ->
  _usarLecturaInyectada s = false ->
  readBatteryVolts s hw = (lastVolts s, hw) /\
  medido s hw = lastVolts s /\
  lastVolts (tick_obj s hw) = lastVolts s /\
  tick_hw s hw = hw /\
  isCutoff (tick_obj s hw) = corta s (lastVolts s) /\
  level (tick_obj s hw) =
    (if corta s (lastVolts s) then level s
     else level (actualizarNivelConHisteresis (lastVolts s) s)).
Proof.
  intros P U.
  assert (R : readBatteryVolts s hw = (lastVolts s, hw)).
  { unfold readBatteryVolts.
    apply Z.ltb_lt in P. rewrite P. reflexivity. }
  assert (M : medir s hw = (lastVolts s, hw)).
  { unfold medir. rewrite U. exact R. }
  assert (V0 : medido s hw = lastVolts s).
  { unfold medido. rewrite M. reflexivity. }
  split; [exact R | split; [exact V0 | ] ].
  rewrite tick_hw_eq, tick_obj_eq, M, V0. cbv zeta.
  destruct (corta s (lastVolts s)).
  - repeat split.
  - destruct (due_reached (reloj_ms hw) (_msProximoEnvio s)); repeat split.
Qed.

(** A zero-initialised instance with the default configuration holds 0 V as
    its last measurement: every cycle measures 0 V again and is cut off. *)
Lemma C9_no_pin_uses_last_witness :
  lastVolts (tick_obj obj_begun (set_reloj 5 hw_zero)) = S754_zero false /\
  isCutoff (tick_obj obj_begun (set_reloj 5 hw_zero)) = true.
Proof.
  pose proof (C9_no_pin_uses_last obj_begun (set_reloj 5 hw_zero)
                eq_refl eq_refl) as H.
  destruct H as (_ & _ & L & _ & C & _).
  split.
  - rewrite L. reflexivity.
  - rewrite C. reflexivity.
Defined.

(** ** Injection *)

Lemma tick_obj_injection (s : AdaptiveTXWSN) (hw : Board) :
  _usarLecturaInyectada (tick_obj s hw) = _usarLecturaInyectada s /\
  _voltajeInyectado_V (tick_obj s hw) = _voltajeInyectado_V s.
Proof.
  rewrite tick_obj_eq. cbv zeta.
  destruct (corta s (medido s hw)); [split; reflexivity | ].
  destruct (due_reached (reloj_ms hw) (_msProximoEnvio s)); split; reflexivity.
Qed.

Lemma exec_call_injection (c : Call) (s : AdaptiveTXWSN) (hw : Board) :
  let s' := fst (exec_call c s hw) in
  match c with
  | CallOp (OpSetBatteryVolts v) =>
      _usarLecturaInyectada s' = true /\ _voltajeInyectado_V s' = v
  | _ =>
      _usarLecturaInyectada s' = _usarLecturaInyectada s /\
      _voltajeInyectado_V s' = _voltajeInyectado_V s
  end.
Proof.
  cbv zeta. destruct c as [o | cfg]; [destruct o | ];
    try (split; reflexivity).
  unfold exec_call. rewrite exec_tick. simpl. apply tick_obj_injection.
Qed.

Lemma run_calls_injection (calls : list (Call * Z)) :
  forall s hw,
    _usarLecturaInyectada s = true ->
    _usarLecturaInyectada (fst (run_calls calls s hw)) = true /\
    _voltajeInyectado_V (fst (run_calls calls s hw))
    = last_injected calls (_voltajeInyectado_V s).
Proof.
  induction calls as [ | [c t] rest IH]; intros s hw U; simpl.
  - split; [exact U | reflexivity].
  - pose proof (exec_call_injection c s (set_reloj t hw)) as E. cbv zeta in E.
    destruct (exec_call c s (set_reloj t hw)) as [s' hw']. simpl in E.
    destruct c as [o | cfg]; [destruct o | ];
      destruct E as [E1 E2];
      try (rewrite <- E2; apply IH; rewrite E1; exact U).
    rewrite <- E2. apply IH. exact E1.
Qed.

(** C10. No public call clears the use-injected flag: a call made while it
    is set leaves it set ([begin] included). Hence after
    [setBatteryVolts(v)] and any further calls, the flag is set and the
    stored injected value is the most recently injected one; a cycle call
    then takes that value as its measurement, stores it as the last
    voltage, and leaves the board untouched: no [analogRead] is made. *)
Theorem C10_injection_irreversible :
  (forall c s hw,
     _usarLecturaInyectada s = true ->
     _usarLecturaInyectada (fst (exec_call c s hw)) = true) /\
  (forall calls v s hw,
     let s' := fst (run_calls calls (setBatteryVolts v s) hw) in
     let vi := last_injected calls v in
     _usarLecturaInyectada s' = true /\
     _voltajeInyectado_V s' = vi /\
     forall hw2,
       medido s' hw2 = vi /\
       lastVolts (tick_obj s' hw2) = vi /\
       tick_hw s' hw2 = hw2 /\
       lecturas_adc (tick_hw s' hw2) = lecturas_adc hw2).
Proof.
  split.
  - intros c s hw U.
    pose proof (exec_call_injection c s hw) as E. cbv zeta in E.
    destruct c as [o | cfg]; [destruct o | ]; destruct E as [E1 _];
      congruence.
  - intros calls v s hw. cbv zeta.
    destruct (run_calls_injection calls (setBatteryVolts v s) hw eq_refl)
      as [U I].
    simpl in I.
    split; [exact U | split; [exact I | ] ].
    intros hw2.
    assert (M : medir (fst (run_calls calls (setBatteryVolts v s) hw)) hw2
                = (last_injected calls v, hw2)).
    { unfold medir. rewrite U, I. reflexivity. }
    assert (V0 : medido (fst (run_calls calls (setBatteryVolts v s) hw)) hw2
                 = last_injected calls v).
    { unfold medido. rewrite M. reflexivity. }
    split; [exact V0 | ].
    rewrite tick_hw_eq, M. simpl.
    split; [ | split; reflexivity ].
    rewrite tick_obj_eq. cbv zeta. rewrite V0.
    destruct (corta _ _); [reflexivity | ].
    destruct (due_reached _ _); reflexivity.
Qed.

(** ** No chatter inside a dead-band *)

Lemma in_band_keeps (v : F32.float) (s : AdaptiveTXWSN) :
  in_band (_configuracion s) (level s) v ->
  level (actualizarNivelConHisteresis v s) = level s.
Proof.
  rewrite actualizar_level. cbv zeta. unfold in_band.
  destruct (level s).
  - intros H. rewrite (ltb_true_geb_false _ _ H). reflexivity.
  - intros [H1 H2].
    rewrite (ltb_true_geb_false _ _ H2), (geb_true_ltb_false _ _ H1).
    reflexivity.
  - intros H. rewrite (geb_true_ltb_false _ _ H). reflexivity.
Qed.

Lemma exec_in_band (l : Level) (o : Op) (s : AdaptiveTXWSN) (hw : Board) :
  level s = l ->
  keeps_bands o = true ->
  match o with
  | OpTick => in_band (_configuracion s) l (medido s hw)
  | _ => True
  end ->
  level (fst (exec o s hw)) = l.
Proof.
  intros L K B. destruct o; try exact L.
  rewrite exec_tick. simpl. rewrite tick_obj_eq. cbv zeta.
  assert (E : level (actualizarNivelConHisteresis (medido s hw) s) = l).
  { rewrite <- L. apply in_band_keeps. rewrite L. exact B. }
  destruct (corta s (medido s hw)); [exact L | ].
  destruct (due_reached (reloj_ms hw) (_msProximoEnvio s)); exact E.
Qed.

Lemma stays_in_band_level (l : Level) (calls : list (Op * Z)) :
  forall s hw,
    level s = l ->
    stays_in_band in_band l calls s hw ->
    level (fst (run calls s hw)) = l.
Proof.
  induction calls as [ | [o t] rest IH]; intros s hw L H; simpl in *.
  - exact L.
  - destruct H as (K & B & R).
    pose proof (exec_in_band l o s (set_reloj t hw) L K B) as L'.
    destruct (exec o s (set_reloj t hw)) as [s' hw']. simpl in *.
    apply IH; assumption.
Qed.

Lemma stays_in_band_firstn (band : Cfg -> Level -> F32.float -> Prop)
    (l : Level) (calls : list (Op * Z)) :
  forall k s hw,
    stays_in_band band l calls s hw ->
    stays_in_band band l (firstn k calls) s hw.
Proof.
  induction calls as [ | [o t] rest IH]; intros k s hw H.
  - destruct k; exact I.
  - destruct k as [ | k]; [exact I | ].
    simpl in *. destruct H as (K & B & R).
    split; [exact K | split; [exact B | ] ].
    apply IH. exact R.
Qed.

(** C5 (as amended). For every level [l] and every finite run of calls that
    do not change the thresholds or the fraction, started at [l], in which
    every cycle call measures a voltage inside [l]'s dead-band as the code
    computes it (at or above [alto - alto*f] for HIGH; in
    [[medio - medio*f, alto + alto*f)] for MID; below [medio + medio*f] for
    LOW), the level is [l] after the run and after every prefix of it.
    Both default thresholds lie inside the bands of the two levels they
    separate, so with the default configuration a voltage sitting exactly
    at a threshold never flips the level. *)
Theorem C5_no_chatter :
  (forall (l : Level) (calls : list (Op * Z)) (s : AdaptiveTXWSN) (hw : Board),
     level s = l ->
     stays_in_band in_band l calls s hw ->
     level (fst (run calls s hw)) = l /\
     forall k, level (fst (run (firstn k calls) s hw)) = l) /\
  (in_band Cfg_default BATT_HIGH (umbralAlto_V Cfg_default) /\
   in_band Cfg_default BATT_MID (umbralAlto_V Cfg_default) /\
   in_band Cfg_default BATT_MID (umbralMedio_V Cfg_default) /\
   in_band Cfg_default BATT_LOW (umbralMedio_V Cfg_default)).
Proof.
  split.
  - intros l calls s hw L H. split.
    + apply stays_in_band_level; assumption.
    + intros k. apply stays_in_band_level; [exact L | ].
      apply stays_in_band_firstn. exact H.
  - unfold in_band. cbv zeta. repeat split; vm_compute; reflexivity.
Qed.

(** At MID with the default configuration, 3.80 V, 3.55 V and 4.00 V are
    all inside [[3.492, 4.017)]: three cycles later the level is MID. *)
Lemma C5_no_chatter_witness :
  level (fst (run calls_mid_band (obj_at Cfg_default BATT_MID 0) hw_zero))
  = BATT_MID.
Proof.
  refine (proj1 (proj1 C5_no_chatter BATT_MID calls_mid_band
                   (obj_at Cfg_default BATT_MID 0) hw_zero eq_refl _)).
  vm_compute. repeat split.
Defined.

(** C5 (as stated) fails with an 8 % fraction. The node is at MID and
    measures [8833204 * 2^-21] V (about 4.2119999), which is at or above
    [3.60 × (1 − 0.08)] and below [3.90 × (1 + 0.08)] both in single
    precision and as exact rationals, so the claim keeps it at MID; the
    code compares with [3.90 + 3.90*0.08], which rounds to the measured
    value itself, and moves to HIGH. *)
Lemma C5_counterexample :
  let v := S754_finite false 8833204 (-21) in
  let calls := [(OpSetBatteryVolts v, 1); (OpTick, 1)] in
  let s := obj_mid_8pct in
  F32.valid v = true /\ reachable s /\ level s = BATT_MID /\
  stays_in_band spec_in_band BATT_MID calls s hw_zero /\
  stays_in_band spec_in_band_Q BATT_MID calls s hw_zero /\
  level (fst (run calls s hw_zero)) = BATT_HIGH.
Proof.
  cbv zeta. split; [reflexivity | split].
  - unfold obj_mid_8pct. apply run_reachable. apply reach_begin.
  - split; [vm_compute; reflexivity | ].
    split; [ | split; [ | vm_compute; reflexivity ] ].
    + vm_compute. repeat split.
    + vm_compute. repeat split; discriminate.
Qed.

(** * Further properties of the code *)

(** ** The order of the float comparisons *)

Lemma SFcompare_Lt_key (x y : spec_float) :
  SFcompare x y = Some Lt <->
  no_nan x /\ no_nan y /\ key_lt (float_key x) (float_key y).
Proof.
  destruct x as [sx | sx | | sx mx ex], y as [sy | sy | | sy my ey];
    try destruct sx; try destruct sy; simpl;
    try change (Pos.compare_cont Eq mx my) with (Pos.compare mx my);
    try destruct (Z.compare_spec ex ey) as [E | E | E];
    try destruct (Pos.compare_spec mx my) as [M | M | M]; simpl;
    (split; [intros H; try discriminate H; repeat split; lia
            | intros (N1 & N2 & H); try reflexivity; try contradiction; lia]).
Qed.

Lemma SFcompare_no_nan (x y : spec_float) :
  SFcompare x y <> None <-> no_nan x /\ no_nan y.
Proof.
  destruct x as [sx | sx | | sx mx ex], y as [sy | sy | | sy my ey];
    try destruct sx; try destruct sy; simpl;
    (split; [intros H; try (split; exact I); exfalso; apply H; reflexivity
            | intros [A B]; try contradiction; discriminate]).
Qed.

Lemma ltb_key (x y : F32.float) :
  F32.ltb x y = true <->
  no_nan x /\ no_nan y /\ key_lt (float_key x) (float_key y).
Proof.
  rewrite <- SFcompare_Lt_key. unfold F32.ltb, SFltb.
  destruct (SFcompare x y) as [[ | | ] | ]; split; congruence.
Qed.

Lemma geb_key (x y : F32.float) :
  F32.geb x y = true <->
  no_nan x /\ no_nan y /\ ~ key_lt (float_key x) (float_key y).
Proof.
  pose proof (SFcompare_Lt_key x y) as L.
  pose proof (SFcompare_no_nan x y) as N.
  unfold F32.geb, SFleb. rewrite (SFcompare_antisym x y).
  destruct (SFcompare x y) as [[ | | ] | ] eqn:E; simpl.
  - split; [intros _ | reflexivity].
    destruct (proj1 N ltac:(discriminate)) as [A B].
    repeat split; try assumption. intros K.
    assert (X : Some Eq = Some Lt) by (apply L; tauto). discriminate X.
  - split; [discriminate | ].
    intros (A & B & C). exfalso. apply C. apply L. reflexivity.
  - split; [intros _ | reflexivity].
    destruct (proj1 N ltac:(discriminate)) as [A B].
    repeat split; try assumption. intros K.
    assert (X : Some Gt = Some Lt) by (apply L; tauto). discriminate X.
  - split; [discriminate | ].
    intros (A & B & C). exfalso.
    apply (proj2 N (conj A B)). reflexivity.
Qed.

(** Transitivity facts used below. *)
Lemma lt_le_not_ge (v a b : F32.float) :
  F32.ltb v a = true -> F32.geb b a = true -> F32.geb v b = false.
Proof.
  intros H1 H2. destruct (F32.geb v b) eqn:G; [ | reflexivity ].
  exfalso. key_order ltb_key geb_key.
Qed.

Lemma ge_ge_not_lt (v a b : F32.float) :
  F32.geb v b = true -> F32.geb b a = true -> F32.ltb v a = false.
Proof.
  intros H1 H2. destruct (F32.ltb v a) eqn:G; [ | reflexivity ].
  exfalso. key_order ltb_key geb_key.
Qed.

Lemma le_lt_lt (v1 v2 a : F32.float) :
  F32.geb v2 v1 = true -> F32.ltb v2 a = true -> F32.ltb v1 a = true.
Proof.
  intros H1 H2. destruct (F32.ltb v1 a) eqn:G; [reflexivity | ].
  exfalso. key_order ltb_key geb_key.
Qed.

Lemma ge_le_ge (v1 v2 a : F32.float) :
  F32.geb v2 v1 = true -> F32.geb v1 a = true -> F32.geb v2 a = true.
Proof.
  intros H1 H2. destruct (F32.geb v2 a) eqn:G; [reflexivity | ].
  exfalso. key_order ltb_key geb_key.
Qed.

(** ** The classifier under a fixed configuration *)

Lemma actualizar_siguiente (v : F32.float) (s : AdaptiveTXWSN) :
  actualizarNivelConHisteresis v s
  = with_nivel (nivel_siguiente (_configuracion s) v (level s)) s.
Proof.
  rewrite (actualizar_frame v s) at 1. f_equal.
  rewrite actualizar_level. reflexivity.
Qed.

Lemma iter_actualizar (v : F32.float) (s : AdaptiveTXWSN) (n : nat) :
  Nat.iter n (actualizarNivelConHisteresis v) s
  = with_nivel (Nat.iter n (nivel_siguiente (_configuracion s) v) (level s)) s.
Proof.
  induction n as [ | n IH]; simpl.
  - destruct s; reflexivity.
  - rewrite IH, actualizar_siguiente. reflexivity.
Qed.

(** X1. The classifier is monotone in the voltage: from the same state, a
    voltage that compares at or above another never gives a lower level. *)
Theorem X1_classifier_monotone (v1 v2 : F32.float) (s : AdaptiveTXWSN) :
  F32.geb v2 v1 = true ->
  Level_value (level (actualizarNivelConHisteresis v1 s))
  <= Level_value (level (actualizarNivelConHisteresis v2 s)).
Proof.
  intros H. rewrite !actualizar_level. cbv zeta.
  destruct (level s);
    repeat match goal with
    | |- context [if ?x then _ else _] => destruct x eqn:?
    end; simpl; try lia; exfalso; key_order ltb_key geb_key.
Qed.

Lemma X1_classifier_monotone_witness :
  Level_value (level (actualizarNivelConHisteresis (V 350 100)
                        (obj_at Cfg_default BATT_MID 0)))
  <= Level_value (level (actualizarNivelConHisteresis (V 410 100)
                           (obj_at Cfg_default BATT_MID 0))).
Proof.
  apply (X1_classifier_monotone (V 350 100) (V 410 100)
           (obj_at Cfg_default BATT_MID 0)).
  vm_compute. reflexivity.
Defined.

Lemma nivel_siguiente_settles (c : Cfg) (v : F32.float) (l : Level) :
  let f := fraccionHisteresis c in
  F32.geb (subida (umbralAlto_V c) f) (bajada (umbralAlto_V c) f) = true ->
  F32.geb (subida (umbralMedio_V c) f) (bajada (umbralMedio_V c) f) = true ->
  let l2 := nivel_siguiente c v (nivel_siguiente c v l) in
  nivel_siguiente c v l2 = l2.
Proof.
  cbv zeta. intros Ha Hm. unfold nivel_siguiente.
  destruct l;
    repeat match goal with
    | |- context [if ?x then _ else _] => destruct x eqn:?
    end; try reflexivity; try congruence; exfalso;
    key_order ltb_key geb_key.
Qed.

(** X2. Under a constant voltage the classifier settles within two steps,
    provided each upper band compares at or above its lower band: every
    further step leaves the object as the second step left it. *)
Theorem X2_classifier_settles (v : F32.float) (s : AdaptiveTXWSN) (n : nat) :
  let c := _configuracion s in
  let f := fraccionHisteresis c in
  F32.geb (subida (umbralAlto_V c) f) (bajada (umbralAlto_V c) f) = true ->
  F32.geb (subida (umbralMedio_V c) f) (bajada (umbralMedio_V c) f) = true ->
  Nat.iter (2 + n) (actualizarNivelConHisteresis v) s
  = Nat.iter 2 (actualizarNivelConHisteresis v) s.
Proof.
  cbv zeta. intros Ha Hm. rewrite !iter_actualizar. f_equal.
  induction n as [ | n IH]; [reflexivity | ].
  change (2 + S n)%nat with (S (2 + n)). simpl Nat.iter at 1.
  change (nivel_siguiente (_configuracion s) v
            (nivel_siguiente (_configuracion s) v
               (Nat.iter n (nivel_siguiente (_configuracion s) v) (level s))))
    with (Nat.iter (2 + n) (nivel_siguiente (_configuracion s) v) (level s)).
  rewrite IH. apply (nivel_siguiente_settles (_configuracion s) v (level s) Ha Hm).
Qed.

Lemma X2_classifier_settles_witness :
  Nat.iter 7 (actualizarNivelConHisteresis (V 345 100))
    (obj_at Cfg_default BATT_HIGH 0)
  = Nat.iter 2 (actualizarNivelConHisteresis (V 345 100))
      (obj_at Cfg_default BATT_HIGH 0).
Proof.
  apply (X2_classifier_settles (V 345 100) (obj_at Cfg_default BATT_HIGH 0) 5);
    vm_compute; reflexivity.
Defined.

(** X3. With a zero hysteresis fraction and finite non-zero thresholds both
    bands of a threshold are the threshold itself, so the classifier
    compares with the bare thresholds: a voltage equal to the high
    threshold takes MID to HIGH, one equal to the mid threshold takes LOW
    to MID. *)
Theorem X3_zero_fraction (v : F32.float) (s : AdaptiveTXWSN)
    (sf sa sm : bool) (ma mm : positive) (ea em : Z) :
  let c := _configuracion s in
  fraccionHisteresis c = S754_zero sf ->
  umbralAlto_V c = S754_finite sa ma ea ->
  umbralMedio_V c = S754_finite sm mm em ->
  bajada (umbralAlto_V c) (fraccionHisteresis c) = umbralAlto_V c /\
  subida (umbralAlto_V c) (fraccionHisteresis c) = umbralAlto_V c /\
  bajada (umbralMedio_V c) (fraccionHisteresis c) = umbralMedio_V c /\
  subida (umbralMedio_V c) (fraccionHisteresis c) = umbralMedio_V c /\
  level (actualizarNivelConHisteresis v s) =
  match level s with
  | BATT_HIGH => if F32.ltb v (umbralAlto_V c) then BATT_MID else BATT_HIGH
  | BATT_MID =>
      if F32.geb v (umbralAlto_V c) then BATT_HIGH
      else if F32.ltb v (umbralMedio_V c) then BATT_LOW else BATT_MID
  | BATT_LOW => if F32.geb v (umbralMedio_V c) then BATT_MID else BATT_LOW
  end.
Proof.
  cbv zeta. intros F A M.
  rewrite actualizar_level. cbv zeta. rewrite F, A, M.
  assert (B : forall s0 m0 e0,
             bajada (S754_finite s0 m0 e0) (S754_zero sf) = S754_finite s0 m0 e0
             /\ subida (S754_finite s0 m0 e0) (S754_zero sf)
                = S754_finite s0 m0 e0).
  { intros s0 m0 e0. split; reflexivity. }
  destruct (B sa ma ea) as [B1 B2]. destruct (B sm mm em) as [B3 B4].
  rewrite B1, B2, B3, B4. repeat split.
Qed.

Lemma X3_zero_fraction_witness :
  let s := setHysteresisPct (S754_zero false) (obj_at Cfg_default BATT_MID 0) in
  level (actualizarNivelConHisteresis (V 390 100) s) = BATT_HIGH.
Proof.
  cbv zeta.
  destruct (X3_zero_fraction (V 390 100)
              (setHysteresisPct (S754_zero false) (obj_at Cfg_default BATT_MID 0))
              false false false 16357786 15099494 (-22) (-22)
              eq_refl eq_refl eq_refl) as (_ & _ & _ & _ & L).
  rewrite L. vm_compute. reflexivity.
Defined.

(** X4. A NaN measurement is never cut off and never changes the level:
    the cycle stores it as the last voltage, clears the cutoff flag and
    behaves as the bare timer. *)
Theorem X4_nan_measurement (s : AdaptiveTXWSN) (hw : Board) :
  medido s hw = S754_nan ->
  lastVolts (tick_obj s hw) = S754_nan /\
  isCutoff (tick_obj s hw) = false /\
  level (tick_obj s hw) = level s /\
  tick_ret s hw = due_reached (reloj_ms hw) (_msProximoEnvio s).
Proof.
  intros N.
  assert (C : corta s S754_nan = false) by reflexivity.
  assert (G : forall x, F32.geb S754_nan x = false)
    by (intros x; destruct x; reflexivity).
  assert (L : level (actualizarNivelConHisteresis S754_nan s) = level s).
  { rewrite actualizar_level. cbv zeta. rewrite !G.
    destruct (level s); reflexivity. }
  rewrite tick_ret_eq, tick_obj_eq. cbv zeta. rewrite N, C, L.
  destruct (due_reached (reloj_ms hw) (_msProximoEnvio s)); repeat split.
Qed.

(** With the lower divider resistance given as 0 and an ADC that reads 0,
    the reading is [0 * (100 / 0)], a NaN. *)
Lemma X4_nan_measurement_witness :
  let s := fst (begin Cfg_sin_divisor obj_zero hw_zero) in
  isCutoff (tick_obj s hw_zero) = false /\ tick_ret s hw_zero = true.
Proof.
  cbv zeta.
  destruct (X4_nan_measurement (fst (begin Cfg_sin_divisor obj_zero hw_zero))
              hw_zero) as (_ & C & _ & R).
  - vm_compute. reflexivity.
  - split; [exact C | ]. rewrite R. vm_compute. reflexivity.
Defined.

(** ** The sampling loop *)

Lemma muestrear_spec (pin : Z) (n : nat) :
  forall acc hw,
    muestrear pin n acc hw =
    (match n with
     | O => acc
     | S _ => wrap32 (acc + suma_adc (entrada_adc hw) (lecturas_adc hw) n)
     end,
     mkBoard (reloj_ms hw) (entrada_adc hw) (lecturas_adc hw + n)
             (espera_us hw + 250 * Z.of_nat n) (pines_entrada hw)).
Proof.
  induction n as [ | n IH]; intros acc hw.
  - simpl. destruct hw as [r f k e p]. simpl.
    rewrite Nat.add_0_r, Z.add_0_r. reflexivity.
  - cbn [muestrear analogRead]. rewrite IH. cbn [delayMicroseconds reloj_ms
      entrada_adc lecturas_adc espera_us pines_entrada suma_adc].
    f_equal.
    + destruct n as [ | n].
      * simpl. rewrite Z.add_0_r. reflexivity.
      * unfold wrap32. rewrite Zplus_mod_idemp_l. f_equal. lia.
    + f_equal; lia.
Qed.

Lemma medir_board (s : AdaptiveTXWSN) (hw : Board) :
  snd (medir s hw) =
  mkBoard (reloj_ms hw) (entrada_adc hw)
          (lecturas_adc hw + lecturas_de_tick s)
          (espera_us hw + 250 * Z.of_nat (lecturas_de_tick s))
          (pines_entrada hw).
Proof.
  unfold medir, lecturas_de_tick, readBatteryVolts, nMuestras_de.
  destruct (_usarLecturaInyectada s).
  - destruct hw; simpl. rewrite Nat.add_0_r, Z.add_0_r. reflexivity.
  - destruct (pinAdcBateria (_configuracion s) <? 0).
    + destruct hw; simpl. rewrite Nat.add_0_r, Z.add_0_r. reflexivity.
    + rewrite muestrear_spec. reflexivity.
Qed.

(** X5. A cycle call makes no [analogRead] when a voltage has been injected
    or no pin is set, and otherwise exactly [max(1, muestrasPromedioAdc)]
    of them (one even when the sample count is 0), each followed by a
    250 microsecond wait; it changes nothing else on the board. With a
    [uint8_t] sample count that is at most 255 reads and 63750
    microseconds. *)
Theorem X5_sampling_cost (s : AdaptiveTXWSN) (hw : Board) :
  let n := lecturas_de_tick s in
  tick_hw s hw =
    mkBoard (reloj_ms hw) (entrada_adc hw) (lecturas_adc hw + n)
            (espera_us hw + 250 * Z.of_nat n) (pines_entrada hw) /\
  (_usarLecturaInyectada s = false ->
   0 <= pinAdcBateria (_configuracion s) ->
   Z.of_nat n = Z.max 1 (muestrasPromedioAdc (_configuracion s))) /\
  (muestrasPromedioAdc (_configuracion s) <= 255 ->
   Z.of_nat n <= 255 /\ 250 * Z.of_nat n <= 63750).
Proof.
  cbv zeta. split; [ | split ].
  - rewrite tick_hw_eq. apply medir_board.
  - intros U P. unfold lecturas_de_tick, nMuestras_de. rewrite U.
    destruct (Z.ltb_spec (pinAdcBateria (_configuracion s)) 0); [lia | ].
    rewrite Z2Nat.id; lia.
  - intros M. unfold lecturas_de_tick, nMuestras_de.
    destruct (_usarLecturaInyectada s); [simpl; lia | ].
    destruct (pinAdcBateria (_configuracion s) <? 0); [simpl; lia | ].
    rewrite Z2Nat.id; lia.
Qed.

Lemma suma_adc_bounds (feed : nat -> Z) (n : nat) :
  forall k,
    (forall i, (i < n)%nat -> 0 <= feed (k + i)%nat <= 1023) ->
    0 <= suma_adc feed k n <= 1023 * Z.of_nat n.
Proof.
  induction n as [ | n IH]; intros k H; simpl suma_adc.
  - lia.
  - pose proof (H O ltac:(lia)) as H0. rewrite Nat.add_0_r in H0.
    assert (H' : forall i, (i < n)%nat -> 0 <= feed (S k + i)%nat <= 1023).
    { intros i Hi. replace (S k + i)%nat with (k + S i)%nat by lia.
      apply H. lia. }
    pose proof (IH (S k) H'). lia.
Qed.

(** X6. With a pin set, 10-bit samples (0..1023) and a [uint8_t] sample
    count, the 32-bit accumulator never wraps: it holds the plain sum of
    the samples read, which is at most [1023 * n] and below [2^24], and
    the reading is the conversion chain applied to that sum. *)
Theorem X6_accumulator_exact (s : AdaptiveTXWSN) (hw : Board) :
  let c := _configuracion s in
  let n := Z.max 1 (muestrasPromedioAdc c) in
  let suma := suma_adc (entrada_adc hw) (lecturas_adc hw) (Z.to_nat n) in
  0 <= pinAdcBateria c ->
  muestrasPromedioAdc c <= 255 ->
  (forall i, (i < Z.to_nat n)%nat ->
     0 <= entrada_adc hw (lecturas_adc hw + i)%nat <= 1023) ->
  fst (muestrear (pinAdcBateria c) (Z.to_nat n) 0 hw) = suma /\
  0 <= suma <= 1023 * n /\ suma < 2 ^ 24 /\
  fst (readBatteryVolts s hw) =
    F32.mul
      (F32.mul (F32.div (F32.div (F32.of_Z suma) (F32.of_Z n)) (F32.of_Z 1023))
               (voltajeReferenciaAdc c))
      (F32.div (F32.add (divisorRArriba_k c) (divisorRAbajo_k c))
               (divisorRAbajo_k c)).
Proof.
  cbv zeta. intros P M R.
  set (n := Z.max 1 (muestrasPromedioAdc (_configuracion s))) in *.
  pose proof (suma_adc_bounds (entrada_adc hw) (Z.to_nat n) (lecturas_adc hw) R)
    as B.
  rewrite Z2Nat.id in B by lia.
  assert (E : fst (muestrear (pinAdcBateria (_configuracion s)) (Z.to_nat n) 0 hw)
              = suma_adc (entrada_adc hw) (lecturas_adc hw) (Z.to_nat n)).
  { assert (W : fst (muestrear (pinAdcBateria (_configuracion s))
                       (Z.to_nat n) 0 hw)
                = wrap32 (0 + suma_adc (entrada_adc hw) (lecturas_adc hw)
                                (Z.to_nat n))).
    { rewrite muestrear_spec. simpl fst.
      destruct (Z.to_nat n) as [ | n0] eqn:N; [lia | reflexivity]. }
    rewrite W. unfold wrap32. apply Z.mod_small.
    change (2 ^ 32) with 4294967296. lia. }
  split; [exact E | ]. split; [exact B | ].
  split; [change (2 ^ 24) with 16777216; lia | ].
  unfold readBatteryVolts.
  destruct (Z.ltb_spec (pinAdcBateria (_configuracion s)) 0); [lia | ].
  fold n.
  destruct (muestrear (pinAdcBateria (_configuracion s)) (Z.to_nat n) 0 hw)
    as [acc hw1].
  simpl in E. rewrite E. reflexivity.
Qed.

Lemma X6_accumulator_exact_witness :
  let s := fst (begin Cfg_sin_divisor obj_zero hw_zero) in
  let hw := mkBoard 0 (fun _ => 512) 0 0 [] in
  fst (muestrear 0 8 0 hw) = 4096.
Proof.
  cbv zeta.
  pose proof (X6_accumulator_exact
                (fst (begin Cfg_sin_divisor obj_zero hw_zero))
                (mkBoard 0 (fun _ => 512) 0 0 [])) as H.
  cbv zeta in H.
  assert (P : 0 <= pinAdcBateria
                     (_configuracion (fst (begin Cfg_sin_divisor obj_zero hw_zero))))
    by (vm_compute; discriminate).
  assert (M : muestrasPromedioAdc
                (_configuracion (fst (begin Cfg_sin_divisor obj_zero hw_zero)))
              <= 255)
    by (vm_compute; discriminate).
  destruct (H P M) as (E & _).
  - intros i _. simpl. lia.
  - exact E.
Defined.

(** ** The timer over successive calls *)

Lemma due_reached_shift (now due k : Z) :
  due_reached (wrap32 (now + k)) (wrap32 (due + k)) = due_reached now due.
Proof.
  rewrite !due_reached_small, wrap32_sub. f_equal. f_equal. ring.
Qed.

Lemma tick_due (s : AdaptiveTXWSN) (hw : Board) :
  tick_ret s hw = true ->
  _msProximoEnvio (tick_obj s hw)
  = wrap32 (reloj_ms hw + currentPeriod (tick_obj s hw)).
Proof.
  rewrite tick_ret_eq, tick_obj_eq. cbv zeta.
  destruct (corta s (medido s hw)); [discriminate | ].
  destruct (due_reached (reloj_ms hw) (_msProximoEnvio s)); [ | discriminate].
  intros _. rewrite currentPeriod_period_of. reflexivity.
Qed.

(** X7. After a cycle call that fires at clock [now] with period [P], a
    call [d] milliseconds later does not fire while [d < P <= 2^31],
    whatever it measures, and does fire for [P <= d < P + 2^31] when it
    passes the cutoff gate. *)
Theorem X7_spacing (s : AdaptiveTXWSN) (hw hw2 : Board) (d : Z) :
  tick_ret s hw = true ->
  reloj_ms hw2 = wrap32 (reloj_ms hw + d) ->
  let s' := tick_obj s hw in
  let P := currentPeriod s' in
  (0 <= d < P -> P <= 2 ^ 31 -> tick_ret s' hw2 = false) /\
  (P <= d < P + 2 ^ 31 -> corta s' (medido s' hw2) = false ->
   tick_ret s' hw2 = true).
Proof.
  intros F R. cbv zeta.
  pose proof (tick_due s hw F) as D.
  set (s' := tick_obj s hw) in *. set (P := currentPeriod s') in *.
  assert (E : due_reached (reloj_ms hw2) (_msProximoEnvio s')
              = (wrap32 (d - P) <? 2 ^ 31)).
  { rewrite R, D, due_reached_small, wrap32_sub. f_equal. f_equal. ring. }
  change (2 ^ 31) with 2147483648 in *.
  split.
  - intros B B'. rewrite tick_ret_eq, E.
    assert (W : wrap32 (d - P) = d - P + 4294967296).
    { unfold wrap32. change (2 ^ 32) with 4294967296.
      symmetry. apply (Z.mod_unique _ _ (-1)); lia. }
    rewrite W. destruct (Z.ltb_spec (d - P + 4294967296) 2147483648); [lia | ].
    apply andb_false_r.
  - intros B G. rewrite tick_ret_eq, E, G.
    assert (W : wrap32 (d - P) = d - P).
    { unfold wrap32. change (2 ^ 32) with 4294967296.
      apply Z.mod_small. lia. }
    rewrite W. destruct (Z.ltb_spec (d - P) 2147483648); [reflexivity | lia].
Qed.

Lemma X7_spacing_witness :
  let s := setBatteryVolts (V 400 100) (obj_at Cfg_default BATT_HIGH 1000) in
  tick_ret (tick_obj s (set_reloj 1000 hw_zero)) (set_reloj 5999 hw_zero)
  = false.
Proof.
  cbv zeta.
  refine (proj1 (X7_spacing
                   (setBatteryVolts (V 400 100)
                      (obj_at Cfg_default BATT_HIGH 1000))
                   (set_reloj 1000 hw_zero) (set_reloj 5999 hw_zero) 4999
                   _ _) _ _).
  - vm_compute. reflexivity.
  - vm_compute. reflexivity.
  - vm_compute. split; [discriminate | reflexivity].
  - vm_compute. discriminate.
Defined.

Lemma medir_proximo (t : Z) (s : AdaptiveTXWSN) (hw : Board) :
  medir (with_proximo t s) hw = medir s hw.
Proof. reflexivity. Qed.

(** X8. The scheduler does not depend on the absolute clock value: adding
    the same offset, modulo [2^32], to the stored due-time and to the clock
    reading gives the same result and the same object with its due-time
    offset alike. *)
Theorem X8_clock_shift (s : AdaptiveTXWSN) (hw : Board) (k : Z) :
  let s2 := with_proximo (wrap32 (_msProximoEnvio s + k)) s in
  let hw2 := set_reloj (wrap32 (reloj_ms hw + k)) hw in
  tick_ret s2 hw2 = tick_ret s hw /\
  tick_obj s2 hw2
  = with_proximo (wrap32 (_msProximoEnvio (tick_obj s hw) + k)) (tick_obj s hw).
Proof.
  cbv zeta.
  assert (M : medido (with_proximo (wrap32 (_msProximoEnvio s + k)) s)
                (set_reloj (wrap32 (reloj_ms hw + k)) hw) = medido s hw).
  { unfold medido at 1. rewrite medir_proximo.
    rewrite (proj2 (medir_reloj s hw) _). reflexivity. }
  rewrite !tick_ret_eq, !tick_obj_eq. cbv zeta. rewrite M.
  change (corta (with_proximo (wrap32 (_msProximoEnvio s + k)) s) (medido s hw))
    with (corta s (medido s hw)).
  change (_msProximoEnvio (with_proximo (wrap32 (_msProximoEnvio s + k)) s))
    with (wrap32 (_msProximoEnvio s + k)).
  change (reloj_ms (set_reloj (wrap32 (reloj_ms hw + k)) hw))
    with (wrap32 (reloj_ms hw + k)).
  rewrite due_reached_shift.
  assert (L : level (actualizarNivelConHisteresis (medido s hw)
                       (with_proximo (wrap32 (_msProximoEnvio s + k)) s))
              = level (actualizarNivelConHisteresis (medido s hw) s)).
  { rewrite !actualizar_level. reflexivity. }
  rewrite L.
  destruct (corta s (medido s hw)); [split; reflexivity | ].
  destruct (due_reached (reloj_ms hw) (_msProximoEnvio s));
    (split; [reflexivity | ]); unfold with_proximo, with_nivel, with_corte,
    with_ultimo, level; simpl; f_equal.
  unfold wrap32. rewrite Zplus_mod_idemp_l, Zplus_mod_idemp_l.
  f_equal. ring.
Qed.

(** ** Start-up, reconfiguration and cut-off stretches *)

(** X9. [begin] sets the level to HIGH and the due-time to the clock, and
    keeps the last voltage, the cutoff flag and the injection fields of the
    object it is called on. The first cycle after it therefore classifies
    from HIGH: it never yields LOW, whatever the voltage, and when it passes
    the cutoff gate less than [2^31] ms after [begin] it fires. *)
Theorem X9_startup (cfg : Cfg) (s0 : AdaptiveTXWSN) (hw0 hw : Board) (d : Z) :
  let s := fst (begin cfg s0 hw0) in
  0 <= d < 2 ^ 31 ->
  reloj_ms hw = wrap32 (reloj_ms hw0 + d) ->
  (level s = BATT_HIGH /\ _msProximoEnvio s = reloj_ms hw0 /\
   _configuracion s = cfg /\
   lastVolts s = lastVolts s0 /\ isCutoff s = isCutoff s0 /\
   _usarLecturaInyectada s = _usarLecturaInyectada s0 /\
   _voltajeInyectado_V s = _voltajeInyectado_V s0) /\
  level (tick_obj s hw) <> BATT_LOW /\
  (corta s (medido s hw) = false -> tick_ret s hw = true).
Proof.
  cbv zeta. intros D R.
  assert (B : level (fst (begin cfg s0 hw0)) = BATT_HIGH /\
              _msProximoEnvio (fst (begin cfg s0 hw0)) = reloj_ms hw0).
  { unfold begin. simpl.
    destruct (0 <=? pinAdcBateria cfg); split; reflexivity. }
  destruct B as [BL BD].
  split; [ | split ].
  - repeat split; try assumption.
  - rewrite tick_obj_eq. cbv zeta.
    assert (L : forall v, level (actualizarNivelConHisteresis v
                                   (fst (begin cfg s0 hw0))) <> BATT_LOW).
    { intros v. rewrite actualizar_level. cbv zeta. rewrite BL.
      destruct (F32.ltb v _); discriminate. }
    destruct (corta _ _).
    + change (level (fst (begin cfg s0 hw0)) <> BATT_LOW).
      rewrite BL. discriminate.
    + destruct (due_reached _ _);
        exact (L (medido (fst (begin cfg s0 hw0)) hw)).
  - intros G. rewrite tick_ret_eq, G, BD, R.
    rewrite due_reached_small. unfold wrap32.
    rewrite Zminus_mod_idemp_l.
    replace (reloj_ms hw0 + d - reloj_ms hw0) with d by ring.
    change (2 ^ 31) with 2147483648 in *. change (2 ^ 32) with 4294967296.
    rewrite Z.mod_small by lia.
    destruct (Z.ltb_spec d 2147483648); [reflexivity | lia].
Qed.

(** Started at 3.45 V, a voltage of the LOW range, the node is at MID after
    its first cycle. *)
Lemma X9_startup_witness :
  let s := fst (begin Cfg_default (setBatteryVolts (V 345 100) obj_zero) hw_zero) in
  level (tick_obj s (set_reloj 3 hw_zero)) <> BATT_LOW /\
  tick_ret s (set_reloj 3 hw_zero) = true.
Proof.
  cbv zeta.
  destruct (X9_startup Cfg_default (setBatteryVolts (V 345 100) obj_zero)
              hw_zero (set_reloj 3 hw_zero) 3) as (_ & L & F).
  - split; [discriminate | reflexivity].
  - reflexivity.
  - split; [exact L | ]. apply F. vm_compute. reflexivity.
Defined.

Lemma medir_setPeriods (a m b : Z) (s : AdaptiveTXWSN) (hw : Board) :
  medir (setPeriods a m b s) hw = medir s hw.
Proof. reflexivity. Qed.

(** X10. [setPeriods] stores the three periods as given, in whatever order
    of size: it changes neither the level nor the pending due-time nor the
    outcome of the next cycle, and when that cycle fires the due-time
    becomes the clock plus the new period of the level the cycle has
    computed. *)
Theorem X10_setPeriods (a m b : Z) (s : AdaptiveTXWSN) (hw : Board) :
  let s1 := setPeriods a m b s in
  let per := fun l => match l with
                      | BATT_HIGH => a | BATT_MID => m | BATT_LOW => b
                      end in
  currentPeriod s1 = per (level s) /\
  level s1 = level s /\ _msProximoEnvio s1 = _msProximoEnvio s /\
  tick_ret s1 hw = tick_ret s hw /\
  level (tick_obj s1 hw) = level (tick_obj s hw) /\
  _msProximoEnvio (tick_obj s1 hw) =
    (if tick_ret s hw
     then wrap32 (reloj_ms hw + per (level (tick_obj s hw)))
     else _msProximoEnvio s).
Proof.
  cbv zeta.
  assert (M : medido (setPeriods a m b s) hw = medido s hw).
  { unfold medido. rewrite medir_setPeriods. reflexivity. }
  assert (L : forall v, level (actualizarNivelConHisteresis v (setPeriods a m b s))
                        = level (actualizarNivelConHisteresis v s)).
  { intros v. rewrite !actualizar_level. reflexivity. }
  split; [ | split; [reflexivity | split; [reflexivity | ] ] ].
  - rewrite currentPeriod_period_of. unfold level. simpl.
    destruct (_nivelEnergeticoActual s); reflexivity.
  - rewrite !tick_ret_eq, !tick_obj_eq. cbv zeta. rewrite M, L.
    change (corta (setPeriods a m b s) (medido s hw))
      with (corta s (medido s hw)).
    change (_msProximoEnvio (setPeriods a m b s)) with (_msProximoEnvio s).
    destruct (corta s (medido s hw)); simpl; [repeat split | ].
    destruct (due_reached (reloj_ms hw) (_msProximoEnvio s)); simpl;
      repeat split.
Qed.

Lemma run_cons_tick (t : Z) (rest : list (Op * Z)) (s : AdaptiveTXWSN)
    (hw : Board) :
  run ((OpTick, t) :: rest) s hw
  = run rest (tick_obj s (set_reloj t hw)) (tick_hw s (set_reloj t hw)).
Proof. cbn [run]. rewrite exec_tick. reflexivity. Qed.

Lemma all_cut_frame (calls : list (Op * Z)) :
  forall s hw,
    all_cut calls s hw ->
    let s' := fst (run calls s hw) in
    _configuracion s' = _configuracion s /\ level s' = level s /\
    _msProximoEnvio s' = _msProximoEnvio s /\
    _usarLecturaInyectada s' = _usarLecturaInyectada s /\
    _voltajeInyectado_V s' = _voltajeInyectado_V s /\
    (calls <> [] -> isCutoff s' = true).
Proof.
  induction calls as [ | [o t] rest IH]; intros s hw H; cbv zeta.
  - cbn [run fst]. repeat split. intros N. contradiction N; reflexivity.
  - cbn [all_cut] in H. destruct H as (-> & G & R).
    rewrite run_cons_tick. rewrite exec_tick in R. cbn [fst snd] in R.
    specialize (IH _ _ R). cbv zeta in IH.
    assert (E : tick_obj s (set_reloj t hw)
                = with_corte true
                    (with_ultimo (medido s (set_reloj t hw)) s)).
    { rewrite tick_obj_eq. cbv zeta. rewrite G. reflexivity. }
    destruct IH as (I1 & I2 & I3 & I4 & I5 & I6).
    rewrite I1, I2, I3, I4, I5.
    split; [rewrite E; reflexivity | ].
    split; [rewrite E; reflexivity | ].
    split; [rewrite E; reflexivity | ].
    split; [rewrite E; reflexivity | ].
    split; [rewrite E; reflexivity | ].
    intros _. destruct rest as [ | c rest'].
    + cbn [run fst]. rewrite E. reflexivity.
    + apply I6. discriminate.
Qed.

(** X11. A stretch of cut-off cycles of any length returns false every
    time and leaves configuration, level, due-time and the injection
    fields as they were; after a non-empty stretch [isCutoff()] is true.
    The due-time [T] the stretch began with still decides the first cycle
    that then passes the gate: at clock [now] it fires when
    [(now - T) mod 2^32] is below [2^31] and does not fire otherwise, so
    a stretch that outlasts [2^31] ms past [T] makes that cycle wait. *)
Theorem X11_cutoff_stretch (calls : list (Op * Z)) (s : AdaptiveTXWSN)
    (hw hw2 : Board) :
  all_cut calls s hw ->
  let s' := fst (run calls s hw) in
  (_configuracion s' = _configuracion s /\ level s' = level s /\
   _msProximoEnvio s' = _msProximoEnvio s /\
   _usarLecturaInyectada s' = _usarLecturaInyectada s /\
   _voltajeInyectado_V s' = _voltajeInyectado_V s) /\
  (calls <> [] -> isCutoff s' = true) /\
  (corta s' (medido s' hw2) = false ->
   (wrap32 (reloj_ms hw2 - _msProximoEnvio s) < 2 ^ 31 ->
    tick_ret s' hw2 = true) /\
   (2 ^ 31 <= wrap32 (reloj_ms hw2 - _msProximoEnvio s) ->
    tick_ret s' hw2 = false)).
Proof.
  intros H. cbv zeta.
  destruct (all_cut_frame calls s hw H) as (I1 & I2 & I3 & I4 & I5 & I6).
  split; [repeat split; assumption | split; [exact I6 | ] ].
  intros G. rewrite tick_ret_eq, G, I3, due_reached_small. simpl negb.
  split; intros B.
  - apply Z.ltb_lt in B. rewrite B. reflexivity.
  - apply Z.ltb_ge in B. rewrite B. reflexivity.
Qed.

(** A node on pin 0 whose ADC reads 0 for three cycles (0 V, cut off) and
    200 afterwards (about 3.94 V): level and due-time 0 survive the
    stretch, the cycle at clock 40 fires, and had the clock been
    [2^31 + 20] it would not have fired. *)
Lemma X11_cutoff_stretch_witness :
  let s := fst (begin Cfg_pin0 obj_zero hw_recupera) in
  let calls := [(OpTick, 10); (OpTick, 20); (OpTick, 30)] in
  let s' := fst (run calls s hw_recupera) in
  let hw' := snd (run calls s hw_recupera) in
  level s' = BATT_HIGH /\ _msProximoEnvio s' = 0 /\ isCutoff s' = true /\
  tick_ret s' (set_reloj 40 hw') = true /\
  tick_ret s' (set_reloj (2 ^ 31 + 20) hw') = false.
Proof.
  cbv zeta.
  assert (A : all_cut [(OpTick, 10); (OpTick, 20); (OpTick, 30)]
                (fst (begin Cfg_pin0 obj_zero hw_recupera)) hw_recupera)
    by (vm_compute; repeat split).
  pose proof (X11_cutoff_stretch _ _ _
                (set_reloj 40
                   (snd (run [(OpTick, 10); (OpTick, 20); (OpTick, 30)]
                           (fst (begin Cfg_pin0 obj_zero hw_recupera))
                           hw_recupera))) A) as H1.
  pose proof (X11_cutoff_stretch _ _ _
                (set_reloj (2 ^ 31 + 20)
                   (snd (run [(OpTick, 10); (OpTick, 20); (OpTick, 30)]
                           (fst (begin Cfg_pin0 obj_zero hw_recupera))
                           hw_recupera))) A) as H2.
  cbv zeta in H1, H2.
  destruct H1 as ((_ & L & D & _) & C & F1).
  destruct H2 as (_ & _ & F2).
  split; [rewrite L; reflexivity | ].
  split; [rewrite D; reflexivity | ].
  split; [apply C; discriminate | ].
  split.
  - apply F1; [vm_compute; reflexivity | ].
    rewrite <- D. vm_compute. reflexivity.
  - apply F2; [vm_compute; reflexivity | ].
    rewrite <- D. vm_compute. discriminate.
Defined.

(** X12. With bands in their natural order (each lower band at or below
    its upper band, the mid bands at or below the high ones), two
    classification steps bring the node to the level an extreme voltage
    calls for, from whatever level it starts: HIGH when the voltage is at
    or above the upper high band, LOW when it is below the lower mid
    band. *)
Theorem X12_extreme_voltages (v : F32.float) (s : AdaptiveTXWSN) :
  let c := _configuracion s in
  let f := fraccionHisteresis c in
  F32.geb (subida (umbralAlto_V c) f) (bajada (umbralAlto_V c) f) = true ->
  F32.geb (subida (umbralMedio_V c) f) (bajada (umbralMedio_V c) f) = true ->
  F32.geb (subida (umbralAlto_V c) f) (subida (umbralMedio_V c) f) = true ->
  F32.geb (bajada (umbralAlto_V c) f) (bajada (umbralMedio_V c) f) = true ->
  (F32.geb v (subida (umbralAlto_V c) f) = true ->
   level (Nat.iter 2 (actualizarNivelConHisteresis v) s) = BATT_HIGH) /\
  (F32.ltb v (bajada (umbralMedio_V c) f) = true ->
   level (Nat.iter 2 (actualizarNivelConHisteresis v) s) = BATT_LOW).
Proof.
  cbv zeta. intros H1 H2 H3 H4. rewrite iter_actualizar.
  change (level (with_nivel ?l s)) with l.
  cbn [Nat.iter]. unfold nivel_siguiente.
  split; intros Hv.
  - clear H2 H4.
    destruct (level s);
      repeat match goal with
      | |- context [if ?x then _ else _] => destruct x eqn:?
      end; try reflexivity; exfalso; key_order ltb_key geb_key.
  - clear H3.
    destruct (level s);
      repeat match goal with
      | |- context [if ?x then _ else _] => destruct x eqn:?
      end; try reflexivity; exfalso; key_order ltb_key geb_key.
Qed.

(** Started at HIGH, a node measuring 3.45 V is at LOW two cycles later. *)
Lemma X12_extreme_voltages_witness :
  level (Nat.iter 2 (actualizarNivelConHisteresis (V 345 100))
           (obj_at Cfg_default BATT_HIGH 0)) = BATT_LOW.
Proof.
  refine (proj2 (X12_extreme_voltages (V 345 100)
                   (obj_at Cfg_default BATT_HIGH 0) _ _ _ _) _);
    vm_compute; reflexivity.
Defined.
